(** * PublicUpload: the public upload page of kaartkompas

    A shallow embedding of [src/ui/src/pages/PublicUpload.tsx]: the two
    submission handlers ([handleFileUpload], [handleUrlUpload]), the
    bot-verification callback and the two conditional render expressions of
    the page.

    A handler is an [async] function that reads the values captured by the
    render it was created in, calls React state setters, the router, the
    reCAPTCHA widget and the server, inside one try/catch/finally.  It
    is embedded as a computation in a small trace-and-exception monad: the
    trace is the ordered list of calls the handler makes to the outside
    (setters included), and the page state after the handler is obtained by
    replaying the trace on the state it started from. *)

From Stdlib Require Import String Ascii List ZArith Bool Lia.
Import ListNotations.
Open Scope string_scope.
Open Scope Z_scope.

(** ** JavaScript values *)

(** Truthiness of a [string | null | undefined] value: only a non-empty
    string is truthy. *)
Definition truthy (v : option string) : bool :=
  match v with
  | Some s => negb (s =? "")%string
  | None => false
  end.

(** [a || b] where [a] is [string | null | undefined] and [b] a string. *)
Definition or_else (a : option string) (b : string) : string :=
  match a with
  | Some s => if (s =? "")%string then b else s
  | None => b
  end.

(** A value interpolated in a template literal ([None] stands for
    [undefined]). *)
Definition template (v : option string) : string :=
  match v with
  | Some s => s
  | None => "undefined"
  end.

(** [hay.includes(needle)] *)
Fixpoint includes (needle hay : string) : bool :=
  prefix needle hay ||
  match hay with
  | EmptyString => false
  | String _ rest => includes needle rest
  end.

(** [s.split(',')[1]]: the text between the first and the second comma,
    [undefined] when [s] has no comma. *)
Fixpoint upto_comma (s : string) : string :=
  match s with
  | EmptyString => EmptyString
  | String c rest => if Ascii.eqb c "," then EmptyString else String c (upto_comma rest)
  end.

Fixpoint split_comma_1 (s : string) : option string :=
  match s with
  | EmptyString => None
  | String c rest => if Ascii.eqb c "," then Some (upto_comma rest) else split_comma_1 rest
  end.

(** ** Data model *)

(** The [size] field of the object handed to the file handler.  The handler
    tests [typeof file.size === 'number'] before comparing, so both cases are
    kept. *)
Inductive SizeField :=
| SizeNumber (n : Z)
| SizeNotNumber.

Record File := {
  name : string;
  size : SizeField;
  type : string
}.

Record UrlData := { url : string }.

Inductive User := mkUser (uid : string).

(** [useState<{ success: boolean; message: string } | null>] *)
Record UploadResult := {
  success : bool;
  message : string
}.

(** What the four server entry points resolve to. *)
Record Response := {
  resp_success : bool;
  resp_documentId : option string;
  resp_uploadId : option string;
  resp_message : option string
}.

(** An error object (or any non-null value) reaching [catch (error: any)],
    seen through the two properties the handlers read. *)
Record JsError := {
  err_status : option Z;
  err_message : option string
}.

(** What [catch (error: any)] can receive: a value whose properties can be
    read, or [null]/[undefined], on which reading a property throws. *)
Inductive Thrown :=
| thrown_object (e : JsError)
| thrown_nullish.

(** An awaited promise either rejects, with an error object or with
    [null]/[undefined], or resolves, possibly to [null]/[undefined] (the
    handlers guard with [response?.documentId]). *)
Inductive Outcome :=
| Reject (e : JsError)
| Resolve (r : option Response)
| RejectNullish.

(** The mounted reCAPTCHA widget behind [recaptchaRef.current]. *)
Record ReCAPTCHA := { getValue : option string }.

(** [import.meta.env] *)
Record ImportMetaEnv := {
  DEV : bool;
  VITE_RECAPTCHA_SITE_KEY : option string
}.

(** The values a render of [PublicUpload] closes over. *)
Record Page := {
  user : option User;
  activeTab : string;
  recaptchaVerified : bool;
  uploadInProgress : bool;
  uploadResult : option UploadResult;
  lastDocumentId : option string;
  recaptchaRef : option ReCAPTCHA
}.

(** The four server entry points with the arguments they are called with. *)
Inductive ApiCall :=
| api_uploadMenu (fname : string) (fsize : SizeField) (ftype : string) (content : option string)
| api_uploadMenuUrl (u : string) (restaurantName : string)
| uploadPublicMenu (file : File) (recaptchaToken : string)
| parsePublicUrl (u : string) (recaptchaToken : string).

(** Everything a handler does to the outside, in order. *)
Inductive Effect :=
| setRecaptchaVerified (b : bool)
| setUploadInProgress (b : bool)
| setUploadResult (r : option UploadResult)
| setLastDocumentId (id : string)
| startPolling
| navigate (path : string)
| recaptcha_reset
| readAsDataURL (file : File)
| call (c : ApiCall).

Definition is_network (e : Effect) : bool :=
  match e with
  | call _ => true
  | _ => false
  end.

Definition is_navigation (e : Effect) : bool :=
  match e with
  | navigate _ => true
  | _ => false
  end.


Definition authenticated_endpoint (c : ApiCall) : bool :=
  match c with
  | api_uploadMenu _ _ _ _ | api_uploadMenuUrl _ _ => true
  | _ => false
  end.

(** ** Replaying a trace on the page state *)

Definition step (p : Page) (e : Effect) : Page :=
  match e with
  | setRecaptchaVerified b =>
      {| user := user p; activeTab := activeTab p; recaptchaVerified := b;
         uploadInProgress := uploadInProgress p; uploadResult := uploadResult p;
         lastDocumentId := lastDocumentId p; recaptchaRef := recaptchaRef p |}
  | setUploadInProgress b =>
      {| user := user p; activeTab := activeTab p; recaptchaVerified := recaptchaVerified p;
         uploadInProgress := b; uploadResult := uploadResult p;
         lastDocumentId := lastDocumentId p; recaptchaRef := recaptchaRef p |}
  | setUploadResult r =>
      {| user := user p; activeTab := activeTab p; recaptchaVerified := recaptchaVerified p;
         uploadInProgress := uploadInProgress p; uploadResult := r;
         lastDocumentId := lastDocumentId p; recaptchaRef := recaptchaRef p |}
  | setLastDocumentId id =>
      {| user := user p; activeTab := activeTab p; recaptchaVerified := recaptchaVerified p;
         uploadInProgress := uploadInProgress p; uploadResult := uploadResult p;
         lastDocumentId := Some id; recaptchaRef := recaptchaRef p |}
  | recaptcha_reset =>
      {| user := user p; activeTab := activeTab p; recaptchaVerified := recaptchaVerified p;
         uploadInProgress := uploadInProgress p; uploadResult := uploadResult p;
         lastDocumentId := lastDocumentId p;
         recaptchaRef := option_map (fun _ => {| getValue := None |}) (recaptchaRef p) |}
  | startPolling | navigate _ | readAsDataURL _ | call _ => p
  end.

Definition settle (p : Page) (tr : list Effect) : Page := fold_left step tr p.

(** ** The handler monad: a trace and either an exception or a value *)

Definition M (A : Type) : Type := (list Effect * (Thrown + A))%type.

Definition ret {A} (a : A) : M A := ([], inr a).

Definition bind {A B} (m : M A) (k : A -> M B) : M B :=
  match m with
  | (tr, inl e) => (tr, inl e)
  | (tr, inr a) => let (tr', r) := k a in ((tr ++ tr')%list, r)
  end.

Definition emit (e : Effect) : M unit := ([e], inr tt).

Definition throw {A} (e : Thrown) : M A := ([], inl e).

Definition when (b : bool) (m : M unit) : M unit := if b then m else ret tt.

(** [try { body } catch (error) { handler error }] *)
Definition try_catch (body : M unit) (handler : Thrown -> M unit) : M unit :=
  match body with
  | (tr, inr tt) => (tr, inr tt)
  | (tr, inl e) => bind (tr, inr tt) (fun _ => handler e)
  end.

(** [try { body } catch (error) { handler error } finally { fin }]: [fin]
    runs in every case, and an exception thrown by the handler itself
    leaves the statement after [fin]. *)
Definition try_catch_finally (body : M unit) (handler : Thrown -> M unit) (fin : M unit) : M unit :=
  match try_catch body handler with
  | (tr, inr tt) => bind (tr, inr tt) (fun _ => fin)
  | (tr, inl e) => bind (tr, inr tt) (fun _ => bind fin (fun _ => throw e))
  end.

Definition trace {A} (m : M A) : list Effect := fst m.

Notation "x <- c1 ;; c2" := (bind c1 (fun x => c2))
  (at level 61, c1 at next level, right associativity).
Notation "c1 ;; c2" := (bind c1 (fun _ => c2))
  (at level 61, right associativity).

(** Reading a property of [null]/[undefined] throws a [TypeError]; it has a
    message (V8's wording is used) and no [status]. *)
Definition TypeError (prop : string) : JsError :=
  {| err_status := None;
     err_message := Some ("Cannot read properties of undefined (reading '" ++ prop ++ "')") |}.

(** [response.success] *)
Definition get_success (response : option Response) : M bool :=
  match response with
  | Some r => ret (resp_success r)
  | None => throw (thrown_object (TypeError "success"))
  end.

(** The first property read of the caught value, [error.status]: it gives
    the error object, and throws when the caught value is [null] or
    [undefined]. *)
Definition read_caught (caught : Thrown) : M JsError :=
  match caught with
  | thrown_object error => ret error
  | thrown_nullish => throw (thrown_object (TypeError "status"))
  end.

(** [response?.documentId] *)
Definition opt_documentId (response : option Response) : option string :=
  match response with
  | Some r => resp_documentId r
  | None => None
  end.

Definition some_user (u : option User) : bool :=
  match u with
  | Some _ => true
  | None => false
  end.

(** [10 * 1024 * 1024] *)
Definition maxSizeBytes : Z := 10 * 1024 * 1024.

(** [typeof file.size === 'number' && file.size > maxSizeBytes] *)
Definition exceedsMaxSize (file : File) : bool :=
  match size file with
  | SizeNumber n => n >? maxSizeBytes
  | SizeNotNumber => false
  end.

(** [import.meta.env.DEV || !import.meta.env.VITE_RECAPTCHA_SITE_KEY] *)
Definition isDev (env : ImportMetaEnv) : bool :=
  DEV env || negb (truthy (VITE_RECAPTCHA_SITE_KEY env)).

(** [recaptchaRef.current?.getValue() || 'dev-token'] *)
Definition recaptchaToken (p : Page) : string :=
  or_else (match recaptchaRef p with Some w => getValue w | None => None end) "dev-token".

(** [recaptchaRef.current?.reset()] *)
Definition reset_widget (p : Page) : M unit :=
  match recaptchaRef p with
  | Some _ => emit recaptcha_reset
  | None => ret tt
  end.

(** [handleRecaptchaChange] *)
Definition handleRecaptchaChange (token : option string) : list Effect :=
  [setRecaptchaVerified (negb (negb (truthy token)))].

(** ** The render conditions of the verification widget and the notice *)

(** [!user && import.meta.env.VITE_RECAPTCHA_SITE_KEY && !import.meta.env.DEV] *)
Definition rendersRecaptcha (env : ImportMetaEnv) (p : Page) : bool :=
  negb (some_user (user p)) && truthy (VITE_RECAPTCHA_SITE_KEY env) && negb (DEV env).

(** [!user && (import.meta.env.DEV || !import.meta.env.VITE_RECAPTCHA_SITE_KEY)] *)
Definition rendersDevNotice (env : ImportMetaEnv) (p : Page) : bool :=
  negb (some_user (user p)) && (DEV env || negb (truthy (VITE_RECAPTCHA_SITE_KEY env))).

(** ** The status-polling hook *)



(** ** The other conditional parts of the page *)

(** [{user && (<Alert> ... loggedInMessage ... </Alert>)}] *)
Definition rendersLoggedInMessage (p : Page) : bool := some_user (user p).

(** [isPublicMode={!user}] of [MenuUpload] and [UrlUpload] *)
Definition isPublicMode (p : Page) : bool := negb (some_user (user p)).

(** [disabled={uploadInProgress}] of [MenuUpload] and [UrlUpload] *)
Definition disabled (p : Page) : bool := uploadInProgress p.

(** [{uploadResult && (<Alert className={uploadResult.success ? ... : ...}>)}]:
    the class of the result alert, [None] when no alert is rendered. *)
Definition resultAlertClassName (p : Page) : option string :=
  match uploadResult p with
  | Some r => Some (if success r then "border-green-200 bg-green-50"
                    else "border-red-200 bg-red-50")
  | None => None
  end.

(** The text inside the result alert: [{uploadResult.message}]. *)
Definition resultAlertText (p : Page) : option string :=
  match uploadResult p with
  | Some r => Some (message r)
  | None => None
  end.

(** [{user && lastDocumentId && (<div> ... </div>)}] *)
Definition rendersStatusLine (p : Page) : bool :=
  some_user (user p) && truthy (lastDocumentId p).

(** [isPolling ? <span>Processing in progress...</span>
     : status ? <span>Processing {status.document.status}</span> : null],
    with [status] given by its [document.status] when it is present. *)
Definition statusLineText (isPolling : bool) (status : option string) : option string :=
  if isPolling then Some "Processing in progress..."
  else match status with
       | Some documentStatus => Some ("Processing " ++ documentStatus)
       | None => None
       end.

(** [{!user && (<div> ... Create Free Account ... </div>)}] *)
Definition rendersCreateAccount (p : Page) : bool := negb (some_user (user p)).

(** [{user && uploadResult?.success && (<div> ... Go to My Menus ... </div>)}] *)
Definition rendersGoToMenus (p : Page) : bool :=
  some_user (user p) &&
  match uploadResult p with
  | Some r => success r
  | None => false
  end.

(** [{ success: false, message: msg }] *)
Definition failure (msg : string) : option UploadResult :=
  Some {| success := false; message := msg |}.

(** [error.status === code] *)
Definition status_is (error : JsError) (code : Z) : bool :=
  match err_status error with
  | Some s => s =? code
  | None => false
  end.

(** [error.message?.includes('reCAPTCHA')] *)
Definition message_includes_reCAPTCHA (error : JsError) : bool :=
  match err_message error with
  | Some m => includes "reCAPTCHA" m
  | None => false
  end.

Section Handlers.

(** The translation function [t(key, defaultValue)] of [useTranslation]. *)
Variable t : string -> string -> string.

(** [FileReader.readAsDataURL]: the data URL in [reader.result], or [None]
    when [reader.onerror] fires. *)
Variable fileReader : File -> option string.

(** What the server answers to a call. *)
Variable server : ApiCall -> Outcome.

Variable env : ImportMetaEnv.

Definition await (c : ApiCall) : M (option Response) :=
  match server c with
  | Resolve r => ([call c], inr r)
  | Reject e => ([call c], inl (thrown_object e))
  | RejectNullish => ([call c], inl thrown_nullish)
  end.

(** The promise around [FileReader]: resolves to [result.split(',')[1]],
    rejects with the error event, which has neither [status] nor
    [message]. *)
Definition await_fileContent (file : File) : M (option string) :=
  match fileReader file with
  | Some result => ([readAsDataURL file], inr (split_comma_1 result))
  | None => ([readAsDataURL file],
             inl (thrown_object {| err_status := None; err_message := None |}))
  end.

(** Lines 53-134 of [handleFileUpload]: everything after the size check. *)
Definition submitFile (p : Page) (file : File) : M unit :=
  if negb (some_user (user p)) && negb (recaptchaVerified p) && negb (isDev env) then
    emit (setUploadResult (failure
      (t "publicUpload.recaptchaRequired" "Please complete the reCAPTCHA verification to proceed.")))
  else
    emit (setUploadInProgress true) ;;
    emit (setUploadResult None) ;;
    try_catch_finally
      (response <-
         (if some_user (user p) then
            fileContent <- await_fileContent file ;;
            response <- await (api_uploadMenu (name file) (size file) (type file) fileContent) ;;
            match opt_documentId response with
            | Some documentId =>
                when (truthy (Some documentId))
                  (emit (setLastDocumentId documentId) ;;
                   emit startPolling)
            | None => ret tt
            end ;;
            ret response
          else
            await (uploadPublicMenu file (recaptchaToken p))) ;;
       ok <- get_success response ;;
       (if ok then
          if some_user (user p) then
            emit (setUploadResult (Some {| success := true;
              message := t "publicUpload.uploadSuccess"
                           "Upload successful! Check your dashboard for analysis results." |}))
          else
            emit (navigate ("/restaurant-details/" ++
                            template (match response with Some r => resp_uploadId r | None => None end)))
        else
          emit (setUploadResult (failure
            (or_else (match response with Some r => resp_message r | None => None end)
                     (t "publicUpload.uploadError" "Upload failed. Please try again."))))) ;;
       when (negb (some_user (user p)))
         (reset_widget p ;;
          emit (setRecaptchaVerified false)))
      (fun caught =>
         error <- read_caught caught ;;
         let errorMessage :=
           if status_is error 429 then
             t "publicUpload.rateLimitError" "Too many uploads. Please wait before trying again."
           else if status_is error 413 then
             t "publicUpload.fileTooLarge" "Maximum upload size is 10 MB"
           else if message_includes_reCAPTCHA error then
             t "publicUpload.recaptchaError" "reCAPTCHA verification failed. Please try again."
           else
             t "publicUpload.uploadError" "Upload failed. Please try again." in
         emit (setUploadResult (failure errorMessage)))
      (emit (setUploadInProgress false)).

(** [handleFileUpload] *)
Definition handleFileUpload (p : Page) (files : list File) : M unit :=
  match files with
  | [] => ret tt
  | file :: _ =>
      if exceedsMaxSize file then
        emit (setUploadResult (failure
          (t "publicUpload.fileTooLarge" "Maximum upload size is 10 MB")))
      else
        submitFile p file
  end.

(** [handleUrlUpload] *)
Definition handleUrlUpload (p : Page) (urlData : UrlData) : M unit :=
  if negb (some_user (user p)) && negb (recaptchaVerified p) && negb (isDev env) then
    emit (setUploadResult (failure
      (t "publicUpload.recaptchaRequired" "Please complete the reCAPTCHA verification to proceed.")))
  else
    emit (setUploadInProgress true) ;;
    emit (setUploadResult None) ;;
    try_catch_finally
      (response <-
         (if some_user (user p) then
            response <- await (api_uploadMenuUrl (url urlData) "") ;;
            match opt_documentId response with
            | Some documentId =>
                when (truthy (Some documentId))
                  (emit (setLastDocumentId documentId) ;;
                   emit startPolling)
            | None => ret tt
            end ;;
            ret response
          else
            await (parsePublicUrl (url urlData) (recaptchaToken p))) ;;
       ok <- get_success response ;;
       (if ok then
          if some_user (user p) then
            emit (setUploadResult (Some {| success := true;
              message := t "publicUpload.uploadSuccess"
                           "Upload successful! Check your dashboard for analysis results." |}))
          else
            emit (navigate ("/restaurant-details/" ++
                            template (match response with Some r => resp_uploadId r | None => None end)))
        else
          emit (setUploadResult (failure
            (or_else (match response with Some r => resp_message r | None => None end)
                     (t "publicUpload.uploadError" "URL parsing failed. Please try again."))))) ;;
       when (negb (some_user (user p)))
         (reset_widget p ;;
          emit (setRecaptchaVerified false)))
      (fun caught =>
         error <- read_caught caught ;;
         let errorMessage :=
           if status_is error 429 then
             t "publicUpload.rateLimitError" "Too many uploads. Please wait before trying again."
           else if message_includes_reCAPTCHA error then
             t "publicUpload.recaptchaError" "reCAPTCHA verification failed. Please try again."
           else
             t "publicUpload.uploadError" "URL parsing failed. Please try again." in
         emit (setUploadResult (failure errorMessage)))
      (emit (setUploadInProgress false)).

End Handlers.

(** ** Concrete collaborators and inputs used to exercise the handlers *)

(** No translation resource loaded: [t] returns the default value. *)
Definition t_default (key defaultValue : string) : string := defaultValue.

Definition env_production : ImportMetaEnv :=
  {| DEV := false; VITE_RECAPTCHA_SITE_KEY := Some "site-key" |}.

Definition env_development : ImportMetaEnv :=
  {| DEV := true; VITE_RECAPTCHA_SITE_KEY := None |}.

Definition page_anonymous (verified : bool) (widget : option ReCAPTCHA) : Page :=
  {| user := None; activeTab := "pdf"; recaptchaVerified := verified;
     uploadInProgress := false; uploadResult := None; lastDocumentId := None;
     recaptchaRef := widget |}.

Definition page_authenticated : Page :=
  {| user := Some (mkUser "owner"); activeTab := "pdf"; recaptchaVerified := false;
     uploadInProgress := false; uploadResult := None; lastDocumentId := None;
     recaptchaRef := None |}.

Definition widget_with (token : string) : option ReCAPTCHA :=
  Some {| getValue := Some token |}.

Definition file_50KB : File :=
  {| name := "menu.pdf"; size := SizeNumber 51200; type := "application/pdf" |}.

Definition file_11MiB : File :=
  {| name := "big.pdf"; size := SizeNumber (11 * 1024 * 1024); type := "application/pdf" |}.

Definition file_untyped_size : File :=
  {| name := "menu.pdf"; size := SizeNotNumber; type := "application/pdf" |}.

Definition reader_ok (f : File) : option string :=
  Some "data:application/pdf;base64,JVBERi0=".

Definition reader_fails (f : File) : option string := None.

Definition menu_url : UrlData := {| url := "https://example.com/menu" |}.

Definition server_answers (r : Response) (c : ApiCall) : Outcome := Resolve (Some r).

Definition server_rejects (e : JsError) (c : ApiCall) : Outcome := Reject e.

(** A server whose calls resolve to [null]. *)
Definition server_answers_null (c : ApiCall) : Outcome := Resolve None.



Definition response_doc1 : Response :=
  {| resp_success := true; resp_documentId := Some "doc1";
     resp_uploadId := None; resp_message := None |}.

Definition response_u1 : Response :=
  {| resp_success := true; resp_documentId := None;
     resp_uploadId := Some "u1"; resp_message := None |}.

Definition response_refused (msg : option string) : Response :=
  {| resp_success := false; resp_documentId := None;
     resp_uploadId := None; resp_message := msg |}.

Definition error_with_status (code : Z) : JsError :=
  {| err_status := Some code; err_message := None |}.

Definition error_with_message (msg : string) : JsError :=
  {| err_status := None; err_message := Some msg |}.

(** An anonymous visitor who has solved the challenge: the widget is
    mounted and holds the token ["tok"]. *)
Definition page_verified : Page := page_anonymous true (widget_with "tok").

(** An anonymous visitor who has not solved it: the widget is mounted and
    holds no token. *)
Definition page_unverified : Page :=
  page_anonymous false (Some {| getValue := None |}).

(** An anonymous visitor on a development build: no widget is mounted. *)
Definition page_development : Page := page_anonymous false None.

(** ** Facts about the JavaScript helpers *)

Lemma truthy_Some (s : string) : truthy (Some s) = true <-> s <> "".
Proof.
  unfold truthy. destruct (String.eqb_spec s ""); simpl; split; congruence.
Qed.

Lemma or_else_truthy (s d : string) : s <> "" -> or_else (Some s) d = s.
Proof.
  intros H. unfold or_else. destruct (String.eqb_spec s ""); congruence.
Qed.

Lemma or_else_falsy (v : option string) (d : string) : truthy v = false -> or_else v d = d.
Proof.
  destruct v as [s|]; simpl; [|reflexivity].
  destruct (s =? "")%string; simpl; congruence.
Qed.

Lemma prefix_append (a b : string) : prefix a (a ++ b) = true.
Proof.
  induction a as [|c a IH]; simpl.
  - destruct b; reflexivity.
  - destruct (ascii_dec c c); [assumption | congruence].
Qed.

Lemma prefix_split (a h : string) : prefix a h = true -> exists b, h = (a ++ b)%string.
Proof.
  revert h. induction a as [|c a IH]; intros h H.
  - exists h. reflexivity.
  - destruct h as [|d h]; simpl in H; [discriminate|].
    destruct (ascii_dec c d); [subst d | discriminate].
    destruct (IH h H) as [b ->]. exists b. reflexivity.
Qed.

(** [includes] is the substring test. *)
Lemma includes_spec (needle hay : string) :
  includes needle hay = true <-> exists a b, hay = (a ++ needle ++ b)%string.
Proof.
  split.
  - induction hay as [|c hay IH]; cbn [includes]; rewrite orb_true_iff; intros [H|H].
    + destruct (prefix_split _ _ H) as [b Hb]. exists "", b. exact Hb.
    + discriminate.
    + destruct (prefix_split _ _ H) as [b Hb]. exists "", b. exact Hb.
    + destruct (IH H) as (a & b & ->). exists (String c a), b. reflexivity.
  - intros (a & b & ->). induction a as [|c a IH].
    + change ("" ++ needle ++ b)%string with (needle ++ b)%string.
      destruct (needle ++ b)%string eqn:E; cbn [includes];
        rewrite <- E, prefix_append; reflexivity.
    + change (String c a ++ needle ++ b)%string with (String c (a ++ needle ++ b)).
      cbn [includes]. rewrite IH. apply orb_true_r.
Qed.

Lemma settle_app (p : Page) (tr1 tr2 : list Effect) :
  settle p (tr1 ++ tr2) = settle (settle p tr1) tr2.
Proof. apply fold_left_app. Qed.

Lemma exceedsMaxSize_spec (file : File) :
  exceedsMaxSize file = true <-> exists n, size file = SizeNumber n /\ n > 10 * 1024 * 1024.
Proof.
  unfold exceedsMaxSize, maxSizeBytes. destruct (size file) as [n|].
  - rewrite Z.gtb_gt. split.
    + intros H. exists n. split; [reflexivity | lia].
    + intros (m & E & H). injection E as ->. lia.
  - split; [discriminate | intros (m & E & _); discriminate].
Qed.

(** The verified flag after the widget's [onChange]: true exactly when the
    widget reported a non-empty token. *)
Lemma handleRecaptchaChange_spec (p : Page) (token : option string) :
  recaptchaVerified (settle p (handleRecaptchaChange token)) = truthy token.
Proof. unfold handleRecaptchaChange. simpl. apply negb_involutive. Qed.

(** The widget is mounted exactly when the verification gate of the
    handlers is active for an anonymous visitor. *)
Lemma rendersRecaptcha_iff_gate (env : ImportMetaEnv) (p : Page) :
  user p = None -> rendersRecaptcha env p = negb (isDev env).
Proof.
  intros H. unfold rendersRecaptcha, isDev. rewrite H.
  destruct (DEV env), (truthy (VITE_RECAPTCHA_SITE_KEY env)); reflexivity.
Qed.

(** ** Properties of the handlers *)

Section Properties.

Local Open Scope list_scope.

Variable t : string -> string -> string.
Variable fileReader : File -> option string.
Variable server : ApiCall -> Outcome.
Variable env : ImportMetaEnv.

Local Abbreviation fileUpload := (handleFileUpload t fileReader server env).
Local Abbreviation urlUpload := (handleUrlUpload t server env).

Local Abbreviation msg_fileTooLarge :=
  (t "publicUpload.fileTooLarge" "Maximum upload size is 10 MB").
Local Abbreviation msg_recaptchaRequired :=
  (t "publicUpload.recaptchaRequired" "Please complete the reCAPTCHA verification to proceed.").
Local Abbreviation msg_uploadSuccess :=
  (t "publicUpload.uploadSuccess" "Upload successful! Check your dashboard for analysis results.").
Local Abbreviation msg_rateLimitError :=
  (t "publicUpload.rateLimitError" "Too many uploads. Please wait before trying again.").
Local Abbreviation msg_recaptchaError :=
  (t "publicUpload.recaptchaError" "reCAPTCHA verification failed. Please try again.").
Local Abbreviation msg_uploadError_file :=
  (t "publicUpload.uploadError" "Upload failed. Please try again.").
Local Abbreviation msg_uploadError_url :=
  (t "publicUpload.uploadError" "URL parsing failed. Please try again.").

(** The verification gate of both handlers:
    [!user && !recaptchaVerified && !isDev]. *)
Local Abbreviation gate_closed p :=
  (negb (some_user (user p)) && negb (recaptchaVerified p) && negb (isDev env)).

(** Unfolding a handler down to its trace, and deciding its branches one
    condition of the source at a time. *)
Ltac run_handler :=
  unfold handleFileUpload, handleUrlUpload, submitFile, await, await_fileContent,
    reset_widget in *;
  cbn [await await_fileContent
       try_catch_finally try_catch read_caught get_success opt_documentId reset_widget when
       bind emit ret throw trace fst snd app negb andb orb some_user] in *.

Ltac split_branches :=
  repeat (run_handler;
    match goal with
    | |- context [user ?p] => destruct (user p) eqn:?
    | |- context [recaptchaVerified ?p] => destruct (recaptchaVerified p) eqn:?
    | |- context [isDev ?e] => destruct (isDev e) eqn:?
    | |- context [exceedsMaxSize ?f] => destruct (exceedsMaxSize f) eqn:?
    | |- context [fileReader ?f] => destruct (fileReader f) eqn:?
    | |- context [server ?c] => destruct (server c) as [?|[?|]|] eqn:?
    | |- context [resp_success ?r] => destruct (resp_success r) eqn:?
    | |- context [truthy (Some ?s)] => destruct (truthy (Some s)) eqn:?
    | |- context [match resp_documentId ?r with _ => _ end] =>
        destruct (resp_documentId r) eqn:?
    | |- context [match recaptchaRef ?p with _ => _ end] =>
        destruct (recaptchaRef p) eqn:?
    | |- context [status_is ?e ?c] => destruct (status_is e c) eqn:?
    | |- context [message_includes_reCAPTCHA ?e] =>
        destruct (message_includes_reCAPTCHA e) eqn:?
    end);
  run_handler.

(** A call found in the trace is the one the server was asked. *)
Ltac find_call H :=
  cbn [trace emit ret fst In] in H;
  repeat match type of H with
  | _ \/ _ => destruct H as [H|H]
  | False => contradiction
  | _ = _ => first [discriminate H | injection H as <-]
  end.

(** C10: called with an empty list of files the file handler returns at
    once: it makes no call at all, so the page state is unchanged and no
    network call is made. *)
Theorem C10_empty_file_list_changes_nothing (p : Page) :
  fileUpload p [] = ([], inr tt) /\
  settle p (trace (fileUpload p [])) = p /\
  existsb is_network (trace (fileUpload p [])) = false.
Proof. repeat split. Qed.

(** C3: a file whose size exceeds 10 * 1024 * 1024 bytes is rejected
    locally: the only thing the handler does is set the file-too-large
    result; no network call is made. *)
Theorem C3_oversized_file_rejected_locally (p : Page) (file : File) (rest : list File) (n : Z) :
  size file = SizeNumber n ->
  n > 10 * 1024 * 1024 ->
  trace (fileUpload p (file :: rest)) = [setUploadResult (failure msg_fileTooLarge)] /\
  uploadResult (settle p (trace (fileUpload p (file :: rest)))) =
    Some {| success := false; message := msg_fileTooLarge |} /\
  existsb is_network (trace (fileUpload p (file :: rest))) = false.
Proof.
  intros Hsize Hn.
  assert (Hbig : exceedsMaxSize file = true)
    by (apply exceedsMaxSize_spec; exists n; split; assumption).
  unfold handleFileUpload. rewrite Hbig. repeat split.
Qed.

(** C9: when the [size] field is not a number the size check is skipped and
    the handler runs the rest of the submission exactly as it does for a
    numeric size within the limit; the local oversized rejection happens
    exactly when the size is a number strictly greater than 10 * 1024 * 1024. *)
Theorem C9_size_check_only_for_numbers (p : Page) (file : File) (rest : list File) :
  (size file = SizeNotNumber ->
     fileUpload p (file :: rest) = submitFile t fileReader server env p file) /\
  (forall n, size file = SizeNumber n -> n <= 10 * 1024 * 1024 ->
     fileUpload p (file :: rest) = submitFile t fileReader server env p file) /\
  (forall n, size file = SizeNumber n -> n > 10 * 1024 * 1024 ->
     fileUpload p (file :: rest) = emit (setUploadResult (failure msg_fileTooLarge))) /\
  (exceedsMaxSize file = true <->
     exists n, size file = SizeNumber n /\ n > 10 * 1024 * 1024).
Proof.
  unfold handleFileUpload, exceedsMaxSize, maxSizeBytes.
  repeat split.
  - intros ->. reflexivity.
  - intros n -> Hn. destruct (Z.gtb_spec n (10 * 1024 * 1024)); [lia | reflexivity].
  - intros n -> Hn. destruct (Z.gtb_spec n (10 * 1024 * 1024)); [reflexivity | lia].
  - intros H. destruct (size file) as [n|]; [|discriminate].
    exists n. split; [reflexivity | apply Z.gtb_gt; exact H].
  - intros (n & -> & Hn). apply Z.gtb_gt. exact Hn.
Qed.

(** C8: the verification widget renders exactly when there is no session, a
    site key is configured and the environment is not development; the
    development notice renders exactly when there is no session and the
    environment is development or no site key is configured; without a
    session exactly one of the two renders. *)
Theorem C8_widget_and_notice_visibility (p : Page) :
  (rendersRecaptcha env p = true <->
     user p = None /\ truthy (VITE_RECAPTCHA_SITE_KEY env) = true /\ DEV env = false) /\
  (rendersDevNotice env p = true <->
     user p = None /\ (DEV env = true \/ truthy (VITE_RECAPTCHA_SITE_KEY env) = false)) /\
  (user p = None -> xorb (rendersRecaptcha env p) (rendersDevNotice env p) = true) /\
  (user p <> None -> rendersRecaptcha env p = false /\ rendersDevNotice env p = false).
Proof.
  unfold rendersRecaptcha, rendersDevNotice.
  destruct (user p) as [u|], (truthy (VITE_RECAPTCHA_SITE_KEY env)), (DEV env); simpl;
    repeat split; try congruence; try tauto; intros; intuition congruence.
Qed.

(** C4 (as amended): for an anonymous user whose verified flag is false, with
    the development flag off and a site key configured, a URL submission and
    a file submission whose file passes the size check are rejected locally
    with the verification-required message; no submission in that situation
    makes a network call. *)
Theorem C4_unverified_anonymous_rejected_locally (p : Page) :
  user p = None ->
  recaptchaVerified p = false ->
  DEV env = false ->
  truthy (VITE_RECAPTCHA_SITE_KEY env) = true ->
  (forall urlData,
     trace (urlUpload p urlData) = [setUploadResult (failure msg_recaptchaRequired)]) /\
  (forall file rest, exceedsMaxSize file = false ->
     trace (fileUpload p (file :: rest)) = [setUploadResult (failure msg_recaptchaRequired)]) /\
  (forall urlData, existsb is_network (trace (urlUpload p urlData)) = false) /\
  (forall files, existsb is_network (trace (fileUpload p files)) = false).
Proof.
  intros Huser Hflag Hdev Hkey.
  assert (Hgate : isDev env = false) by (unfold isDev; rewrite Hdev, Hkey; reflexivity).
  repeat split.
  - intros urlData. unfold handleUrlUpload. rewrite Huser, Hflag, Hgate. reflexivity.
  - intros file rest Hsize. unfold handleFileUpload, submitFile.
    rewrite Hsize, Huser, Hflag, Hgate. reflexivity.
  - intros urlData. unfold handleUrlUpload. rewrite Huser, Hflag, Hgate. reflexivity.
  - intros [|file rest]; [reflexivity|]. unfold handleFileUpload, submitFile.
    rewrite Huser, Hflag, Hgate. destruct (exceedsMaxSize file); reflexivity.
Qed.

(** The token sent to the public endpoint is the widget's value when the
    widget is mounted and holds a non-empty token, and ["dev-token"] in
    every other case. *)
Lemma recaptchaToken_spec (p : Page) :
  (forall w tok, recaptchaRef p = Some w -> getValue w = Some tok -> tok <> "" ->
     recaptchaToken p = tok) /\
  (recaptchaRef p = None -> recaptchaToken p = "dev-token") /\
  (forall w, recaptchaRef p = Some w -> truthy (getValue w) = false ->
     recaptchaToken p = "dev-token").
Proof.
  unfold recaptchaToken. repeat split.
  - intros w tok -> -> Hne. apply or_else_truthy. exact Hne.
  - intros ->. reflexivity.
  - intros w -> Hfalsy. apply or_else_falsy. exact Hfalsy.
Qed.

(** C5 (as amended): an anonymous URL submission, or an anonymous file
    submission whose file passes the size check, made with the verified flag
    set or under a development / no-site-key configuration, calls the public
    endpoint with the widget's token, or with ["dev-token"] when the widget
    is absent or holds no token; when the response reports success the page
    navigates to [/restaurant-details/] followed by the upload identifier of
    that response, and nowhere else. *)
Theorem C5_anonymous_submission_uses_public_endpoint (p : Page) :
  user p = None ->
  recaptchaVerified p = true \/ isDev env = true ->
  ((forall w tok, recaptchaRef p = Some w -> getValue w = Some tok -> tok <> "" ->
      recaptchaToken p = tok) /\
   (recaptchaRef p = None -> recaptchaToken p = "dev-token") /\
   (forall w, recaptchaRef p = Some w -> truthy (getValue w) = false ->
      recaptchaToken p = "dev-token")) /\
  (forall urlData, exists rest,
     trace (urlUpload p urlData) =
       [setUploadInProgress true; setUploadResult None;
        call (parsePublicUrl (url urlData) (recaptchaToken p))] ++ rest) /\
  (forall file files, exceedsMaxSize file = false -> exists rest,
     trace (fileUpload p (file :: files)) =
       [setUploadInProgress true; setUploadResult None;
        call (uploadPublicMenu file (recaptchaToken p))] ++ rest) /\
  (forall urlData r uploadId,
     server (parsePublicUrl (url urlData) (recaptchaToken p)) = Resolve (Some r) ->
     resp_success r = true ->
     resp_uploadId r = Some uploadId ->
     trace (urlUpload p urlData) =
       [setUploadInProgress true; setUploadResult None;
        call (parsePublicUrl (url urlData) (recaptchaToken p));
        navigate ("/restaurant-details/" ++ uploadId)%string] ++
       trace (reset_widget p) ++
       [setRecaptchaVerified false; setUploadInProgress false]) /\
  (forall file files r uploadId,
     exceedsMaxSize file = false ->
     server (uploadPublicMenu file (recaptchaToken p)) = Resolve (Some r) ->
     resp_success r = true ->
     resp_uploadId r = Some uploadId ->
     trace (fileUpload p (file :: files)) =
       [setUploadInProgress true; setUploadResult None;
        call (uploadPublicMenu file (recaptchaToken p));
        navigate ("/restaurant-details/" ++ uploadId)%string] ++
       trace (reset_widget p) ++
       [setRecaptchaVerified false; setUploadInProgress false]).
Proof.
  intros Huser Hgate.
  assert (Hpass : negb (some_user (user p)) && negb (recaptchaVerified p) && negb (isDev env) = false).
  { rewrite Huser. destruct Hgate as [-> | ->]; simpl;
      [reflexivity | apply andb_false_r]. }
  split; [apply recaptchaToken_spec|].
  repeat split.
  - intros urlData. unfold handleUrlUpload. rewrite Hpass, Huser.
    split_branches; eexists; reflexivity.
  - intros file files Hsize. unfold handleFileUpload, submitFile.
    rewrite Hsize, Hpass, Huser. split_branches; eexists; reflexivity.
  - intros urlData r uploadId Hserver Hok Hid. unfold handleUrlUpload.
    rewrite Hpass, Huser. run_handler. rewrite Hserver. run_handler.
    rewrite Hok, Hid. destruct (recaptchaRef p); reflexivity.
  - intros file files r uploadId Hsize Hserver Hok Hid. unfold handleFileUpload, submitFile.
    rewrite Hsize, Hpass, Huser. run_handler. rewrite Hserver. run_handler.
    rewrite Hok, Hid. destruct (recaptchaRef p); reflexivity.
Qed.

(** Which call a URL submission can have made. *)
Lemma urlUpload_call_inv (p : Page) (urlData : UrlData) (c : ApiCall) :
  In (call c) (trace (urlUpload p urlData)) ->
  gate_closed p = false /\
  c = (if some_user (user p) then api_uploadMenuUrl (url urlData) ""
       else parsePublicUrl (url urlData) (recaptchaToken p)).
Proof.
  intros Hin. revert Hin. unfold handleUrlUpload.
  destruct (gate_closed p) eqn:Hgate.
  - intros Hin. find_call Hin.
  - split_branches; intros Hin; find_call Hin; split; reflexivity.
Qed.

(** Which call a file submission can have made. *)
Lemma fileUpload_call_inv (p : Page) (files : list File) (c : ApiCall) :
  In (call c) (trace (fileUpload p files)) ->
  exists file rest,
    files = file :: rest /\
    exceedsMaxSize file = false /\
    gate_closed p = false /\
    ((exists result, some_user (user p) = true /\ fileReader file = Some result /\
        c = api_uploadMenu (name file) (size file) (type file) (split_comma_1 result)) \/
     (some_user (user p) = false /\ c = uploadPublicMenu file (recaptchaToken p))).
Proof.
  intros Hin. revert Hin. destruct files as [|file rest]; [intros []|].
  exists file, rest. revert Hin. unfold handleFileUpload.
  destruct (exceedsMaxSize file) eqn:Hsize; [intros Hin; find_call Hin|].
  unfold submitFile. destruct (gate_closed p) eqn:Hgate; [intros Hin; find_call Hin|].
  split_branches; intros Hin; find_call Hin; repeat split;
    solve [left; eexists; repeat split; eassumption | right; split; reflexivity].
Qed.


Lemma status_is_spec (e : JsError) (code : Z) :
  status_is e code = true <-> err_status e = Some code.
Proof.
  unfold status_is. destruct (err_status e) as [s|].
  - rewrite Z.eqb_eq. split; [intros -> | intros H; injection H]; auto.
  - split; discriminate.
Qed.

(** C6: when the call to the server fails with a transport error, the result
    shown is a failure whose message is: the rate-limit message for status
    429 (both handlers); the file-too-large message for status 413 (file
    handler only); otherwise the verification-failure message when the
    error message contains "reCAPTCHA"; otherwise the generic failure
    message with the wording of the handler (file or URL). *)
Theorem C6_transport_error_messages (p : Page) (c : ApiCall) (e : JsError) :
  server c = Reject e ->
  (forall files, In (call c) (trace (fileUpload p files)) ->
     exists msg,
       uploadResult (settle p (trace (fileUpload p files))) =
         Some {| success := false; message := msg |} /\
       (err_status e = Some 429 -> msg = msg_rateLimitError) /\
       (err_status e = Some 413 -> msg = msg_fileTooLarge) /\
       (err_status e <> Some 429 -> err_status e <> Some 413 ->
        message_includes_reCAPTCHA e = true -> msg = msg_recaptchaError) /\
       (err_status e <> Some 429 -> err_status e <> Some 413 ->
        message_includes_reCAPTCHA e = false -> msg = msg_uploadError_file)) /\
  (forall urlData, In (call c) (trace (urlUpload p urlData)) ->
     exists msg,
       uploadResult (settle p (trace (urlUpload p urlData))) =
         Some {| success := false; message := msg |} /\
       (err_status e = Some 429 -> msg = msg_rateLimitError) /\
       (err_status e <> Some 429 ->
        message_includes_reCAPTCHA e = true -> msg = msg_recaptchaError) /\
       (err_status e <> Some 429 ->
        message_includes_reCAPTCHA e = false -> msg = msg_uploadError_url)).
Proof.
  intros Hserver. split.
  - intros files Hin.
    destruct (fileUpload_call_inv _ _ _ Hin)
      as (file & rest & -> & Hsize & Hgate & [(result & Hsome & Hread & Hc) | (Hsome & Hc)]);
      subst c; clear Hin;
      unfold handleFileUpload, submitFile; rewrite Hsize, Hgate, Hsome; run_handler;
      rewrite ?Hread; run_handler; rewrite Hserver; run_handler;
      (destruct (status_is e 429) eqn:H429;
       [| destruct (status_is e 413) eqn:H413;
          [| destruct (message_includes_reCAPTCHA e) eqn:Hkey]]);
      (eexists; split; [reflexivity|]);
      try (apply status_is_spec in H429);
      try (apply status_is_spec in H413);
      repeat split; intros; try reflexivity; try congruence;
      try (assert (status_is e 429 = true) by (apply status_is_spec; assumption));
      try (assert (status_is e 413 = true) by (apply status_is_spec; assumption));
      congruence.
  - intros urlData Hin.
    destruct (urlUpload_call_inv _ _ _ Hin) as [Hgate Hc]. subst c. clear Hin.
    unfold handleUrlUpload. rewrite Hgate.
    destruct (some_user (user p)); run_handler; rewrite Hserver; run_handler;
      (destruct (status_is e 429) eqn:H429;
       [| destruct (message_includes_reCAPTCHA e) eqn:Hkey]);
      (eexists; split; [reflexivity|]);
      try (apply status_is_spec in H429);
      repeat split; intros; try reflexivity; try congruence;
      try (assert (status_is e 429 = true) by (apply status_is_spec; assumption));
      congruence.
Qed.

(** C7: when the response to the call reports failure, the result shown is
    a failure carrying the server's message if the response has a (non-empty)
    one, and the handler's own generic message (file or URL wording)
    otherwise. *)
Theorem C7_server_failure_message (p : Page) (c : ApiCall) (r : Response) :
  server c = Resolve (Some r) ->
  resp_success r = false ->
  (forall files, In (call c) (trace (fileUpload p files)) ->
     exists msg,
       uploadResult (settle p (trace (fileUpload p files))) =
         Some {| success := false; message := msg |} /\
       (forall m, resp_message r = Some m -> m <> "" -> msg = m) /\
       (resp_message r = None \/ resp_message r = Some "" -> msg = msg_uploadError_file)) /\
  (forall urlData, In (call c) (trace (urlUpload p urlData)) ->
     exists msg,
       uploadResult (settle p (trace (urlUpload p urlData))) =
         Some {| success := false; message := msg |} /\
       (forall m, resp_message r = Some m -> m <> "" -> msg = m) /\
       (resp_message r = None \/ resp_message r = Some "" -> msg = msg_uploadError_url)).
Proof.
  intros Hserver Hko.
  assert (Hmsg : forall d,
            (forall m, resp_message r = Some m -> m <> "" -> or_else (resp_message r) d = m) /\
            (resp_message r = None \/ resp_message r = Some "" -> or_else (resp_message r) d = d)).
  { intros d. split.
    - intros m -> Hne. apply or_else_truthy. exact Hne.
    - intros [-> | ->]; reflexivity. }
  split.
  - intros files Hin.
    destruct (fileUpload_call_inv _ _ _ Hin)
      as (file & rest & -> & Hsize & Hgate & [(result & Hsome & Hread & Hc) | (Hsome & Hc)]);
      subst c; clear Hin;
      unfold handleFileUpload, submitFile; rewrite Hsize, Hgate, Hsome; run_handler;
      rewrite ?Hread; run_handler; rewrite Hserver; split_branches; try congruence;
      (eexists; split; [reflexivity | apply Hmsg]).
  - intros urlData Hin.
    destruct (urlUpload_call_inv _ _ _ Hin) as [Hgate Hc]. subst c. clear Hin.
    unfold handleUrlUpload. rewrite Hgate.
    destruct (some_user (user p)); run_handler; rewrite Hserver; split_branches;
      try congruence; (eexists; split; [reflexivity | apply Hmsg]).
Qed.

(** What an anonymous submission leaves behind when the server answered:
    the widget, if mounted, has been reset and the verified flag is false. *)
Lemma anonymous_response_resets_verification (p : Page) (c : ApiCall) (r : Response) :
  user p = None ->
  server c = Resolve (Some r) ->
  (forall files, In (call c) (trace (fileUpload p files)) ->
     recaptchaVerified (settle p (trace (fileUpload p files))) = false /\
     recaptchaRef (settle p (trace (fileUpload p files))) =
       option_map (fun _ => {| getValue := None |}) (recaptchaRef p)) /\
  (forall urlData, In (call c) (trace (urlUpload p urlData)) ->
     recaptchaVerified (settle p (trace (urlUpload p urlData))) = false /\
     recaptchaRef (settle p (trace (urlUpload p urlData))) =
       option_map (fun _ => {| getValue := None |}) (recaptchaRef p)).
Proof.
  intros Huser Hserver.
  assert (Hsome : some_user (user p) = false) by (rewrite Huser; reflexivity).
  split.
  - intros files Hin.
    destruct (fileUpload_call_inv _ _ _ Hin)
      as (file & rest & -> & Hsize & Hgate & [(result & Hauth & _) | (_ & Hc)]);
      [congruence|].
    subst c. clear Hin. unfold handleFileUpload, submitFile.
    rewrite Hsize, Hgate, Hsome. run_handler. rewrite Hserver.
    run_handler.
    destruct (resp_success r), (recaptchaRef p) eqn:Href; run_handler;
      split; cbn; rewrite ?Href; reflexivity.
  - intros urlData Hin.
    destruct (urlUpload_call_inv _ _ _ Hin) as [Hgate Hc]. rewrite Hsome in Hc.
    subst c. clear Hin. unfold handleUrlUpload.
    rewrite Hgate, Hsome. run_handler. rewrite Hserver.
    run_handler.
    destruct (resp_success r), (recaptchaRef p) eqn:Href; run_handler;
      split; cbn; rewrite ?Href; reflexivity.
Qed.

(** What it leaves behind when the call was rejected: the [catch] and
    [finally] blocks touch neither the widget nor the verified flag. *)
Lemma anonymous_rejection_keeps_verification (p : Page) (c : ApiCall) (e : JsError) :
  user p = None ->
  server c = Reject e ->
  (forall files, In (call c) (trace (fileUpload p files)) ->
     recaptchaVerified (settle p (trace (fileUpload p files))) = recaptchaVerified p /\
     recaptchaRef (settle p (trace (fileUpload p files))) = recaptchaRef p) /\
  (forall urlData, In (call c) (trace (urlUpload p urlData)) ->
     recaptchaVerified (settle p (trace (urlUpload p urlData))) = recaptchaVerified p /\
     recaptchaRef (settle p (trace (urlUpload p urlData))) = recaptchaRef p).
Proof.
  intros Huser Hserver.
  assert (Hsome : some_user (user p) = false) by (rewrite Huser; reflexivity).
  split.
  - intros files Hin.
    destruct (fileUpload_call_inv _ _ _ Hin)
      as (file & rest & -> & Hsize & Hgate & [(result & Hauth & _) | (_ & Hc)]);
      [congruence|].
    subst c. clear Hin. unfold handleFileUpload, submitFile.
    rewrite Hsize, Hgate, Hsome. run_handler. rewrite Hserver.
    run_handler. split; reflexivity.
  - intros urlData Hin.
    destruct (urlUpload_call_inv _ _ _ Hin) as [Hgate Hc]. rewrite Hsome in Hc.
    subst c. clear Hin. unfold handleUrlUpload.
    rewrite Hgate, Hsome. run_handler. rewrite Hserver.
    run_handler. split; reflexivity.
Qed.

(** *** Further properties of the handlers *)

Lemma settle_user (tr : list Effect) (p : Page) : user (settle p tr) = user p.
Proof.
  revert p. induction tr as [|e tr IH]; intros p; [reflexivity|].
  unfold settle in *. cbn [fold_left]. rewrite IH. destruct e; reflexivity.
Qed.

Lemma settle_lastDocumentId (tr : list Effect) (p : Page) :
  (forall id, ~ In (setLastDocumentId id) tr) ->
  lastDocumentId (settle p tr) = lastDocumentId p.
Proof.
  revert p. induction tr as [|e tr IH]; intros p Hno; [reflexivity|].
  unfold settle in *. cbn [fold_left]. rewrite IH.
  - destruct e; try reflexivity. exfalso. apply (Hno id). left. reflexivity.
  - intros id Hin. apply (Hno id). right. exact Hin.
Qed.

(** X1: a handler sends at most one request, and when it goes out the busy
    flag is set and the previous result has been cleared. *)
Theorem request_sent_once_while_busy (p : Page) (c : ApiCall) :
  (forall files, In (call c) (trace (fileUpload p files)) ->
     exists before after,
       trace (fileUpload p files) = before ++ call c :: after /\
       existsb is_network before = false /\
       existsb is_network after = false /\
       uploadInProgress (settle p before) = true /\
       uploadResult (settle p before) = None) /\
  (forall urlData, In (call c) (trace (urlUpload p urlData)) ->
     exists before after,
       trace (urlUpload p urlData) = before ++ call c :: after /\
       existsb is_network before = false /\
       existsb is_network after = false /\
       uploadInProgress (settle p before) = true /\
       uploadResult (settle p before) = None).
Proof.
  split.
  - intros [|file rest] Hin; [destruct Hin|]. revert Hin.
    split_branches; intros Hin; find_call Hin;
      first [ exists [setUploadInProgress true; setUploadResult None]; eexists;
              split; [reflexivity | repeat split; reflexivity]
            | exists [setUploadInProgress true; setUploadResult None; readAsDataURL file];
              eexists; split; [reflexivity | repeat split; reflexivity] ].
  - intros urlData Hin. revert Hin.
    split_branches; intros Hin; find_call Hin;
      exists [setUploadInProgress true; setUploadResult None]; eexists;
      (split; [reflexivity | repeat split; reflexivity]).
Qed.

(** X2: the busy flag is never left set: a run that sets it always clears it
    again, so a page that is not busy before a handler runs is not busy
    after it, whatever the reader and the server do. *)
Theorem busy_flag_released (p : Page) :
  (forall files,
     (In (setUploadInProgress true) (trace (fileUpload p files)) ->
      uploadInProgress (settle p (trace (fileUpload p files))) = false) /\
     (uploadInProgress p = false ->
      uploadInProgress (settle p (trace (fileUpload p files))) = false)) /\
  (forall urlData,
     (In (setUploadInProgress true) (trace (urlUpload p urlData)) ->
      uploadInProgress (settle p (trace (urlUpload p urlData))) = false) /\
     (uploadInProgress p = false ->
      uploadInProgress (settle p (trace (urlUpload p urlData))) = false)).
Proof.
  split.
  - intros [|file rest]; [split; [intros [] | intros H; exact H]|].
    split_branches; (split; [intros Hin | intros Hidle]);
      solve [reflexivity | exact Hidle | find_call Hin].
  - intros urlData.
    split_branches; (split; [intros Hin | intros Hidle]);
      solve [reflexivity | exact Hidle | find_call Hin].
Qed.

(** X4: the endpoint is chosen by the session alone and is given exactly
    what was submitted: with a session the file handler calls
    [api.uploadMenu] with the name, size and type of the first file and the
    content read from it, and the URL handler calls [api.uploadMenuUrl] with
    the URL and an empty restaurant name; without a session they call
    [uploadPublicMenu] with the first file, resp. [parsePublicUrl] with the
    URL, and the token of the widget. *)
Theorem endpoint_matches_session (p : Page) (c : ApiCall) :
  (forall files, In (call c) (trace (fileUpload p files)) ->
     match c with
     | api_uploadMenu fname fsize ftype content =>
         user p <> None /\
         exists file result,
           hd_error files = Some file /\ fileReader file = Some result /\
           fname = name file /\ fsize = size file /\ ftype = type file /\
           content = split_comma_1 result
     | uploadPublicMenu file token =>
         user p = None /\ hd_error files = Some file /\ token = recaptchaToken p
     | _ => False
     end) /\
  (forall urlData, In (call c) (trace (urlUpload p urlData)) ->
     match c with
     | api_uploadMenuUrl u restaurantName =>
         user p <> None /\ u = url urlData /\ restaurantName = ""
     | parsePublicUrl u token =>
         user p = None /\ u = url urlData /\ token = recaptchaToken p
     | _ => False
     end).
Proof.
  split.
  - intros files Hin.
    destruct (fileUpload_call_inv _ _ _ Hin)
      as (file & rest & -> & _ & _ & [(result & Hsome & Hread & ->) | (Hsome & ->)]).
    + split; [destruct (user p); [discriminate | discriminate Hsome]|].
      exists file, result. repeat split. exact Hread.
    + destruct (user p); [discriminate Hsome|]. repeat split.
  - intros urlData Hin.
    destruct (urlUpload_call_inv _ _ _ Hin) as [_ ->].
    destruct (user p); cbn [some_user]; repeat split. discriminate.
Qed.

(** X5: a document identifier is recorded only from the answer to an
    authenticated call: if a handler calls [setLastDocumentId id], there is
    a session, and the authenticated endpoint it called resolved to a
    response whose [documentId] is [id], which is not empty. *)
Theorem recorded_document_id_comes_from_response (p : Page) (id : string) :
  (forall files, In (setLastDocumentId id) (trace (fileUpload p files)) ->
     user p <> None /\ id <> "" /\
     exists c r,
       In (call c) (trace (fileUpload p files)) /\ authenticated_endpoint c = true /\
       server c = Resolve (Some r) /\ resp_documentId r = Some id) /\
  (forall urlData, In (setLastDocumentId id) (trace (urlUpload p urlData)) ->
     user p <> None /\ id <> "" /\
     exists c r,
       In (call c) (trace (urlUpload p urlData)) /\ authenticated_endpoint c = true /\
       server c = Resolve (Some r) /\ resp_documentId r = Some id).
Proof.
  split.
  - intros [|file rest] Hin; [destruct Hin|]. revert Hin.
    split_branches; intros Hin; find_call Hin;
      (split; [discriminate|]); (split; [apply truthy_Some; assumption|]);
      eexists; eexists; (split; [cbn; auto 10|]); (split; [reflexivity|]);
      split; eassumption.
  - intros urlData Hin. revert Hin.
    split_branches; intros Hin; find_call Hin;
      (split; [discriminate|]); (split; [apply truthy_Some; assumption|]);
      eexists; eexists; (split; [cbn; auto 10|]); (split; [reflexivity|]);
      split; eassumption.
Qed.

(** X6: without a session no handler run records a document identifier or
    starts polling, even when the public endpoint's response carries a
    [documentId]: [lastDocumentId] is what it was before. *)
Theorem anonymous_submission_never_polls (p : Page) :
  user p = None ->
  (forall files,
     ~ In startPolling (trace (fileUpload p files)) /\
     (forall id, ~ In (setLastDocumentId id) (trace (fileUpload p files))) /\
     lastDocumentId (settle p (trace (fileUpload p files))) = lastDocumentId p) /\
  (forall urlData,
     ~ In startPolling (trace (urlUpload p urlData)) /\
     (forall id, ~ In (setLastDocumentId id) (trace (urlUpload p urlData))) /\
     lastDocumentId (settle p (trace (urlUpload p urlData))) = lastDocumentId p).
Proof.
  intros Huser.
  assert (Hfile : forall files id, ~ In (setLastDocumentId id) (trace (fileUpload p files))).
  { intros [|file rest] id; [intros []|].
    split_branches; try congruence; intros Hin; find_call Hin. }
  assert (Hurl : forall urlData id, ~ In (setLastDocumentId id) (trace (urlUpload p urlData))).
  { intros urlData id.
    split_branches; try congruence; intros Hin; find_call Hin. }
  split.
  - intros files. split; [|split].
    + destruct files as [|file rest]; [intros []|].
      split_branches; try congruence; intros Hin; find_call Hin.
    + apply Hfile.
    + apply settle_lastDocumentId, Hfile.
  - intros urlData. split; [|split].
    + split_branches; try congruence; intros Hin; find_call Hin.
    + apply Hurl.
    + apply settle_lastDocumentId, Hurl.
Qed.

(** X7: with a session, when the response to the call has no [documentId]
    (absent or empty), no polling starts and [lastDocumentId] keeps its
    previous value; the result of the submission is still shown. *)
Theorem response_without_document_id_starts_no_polling
    (p : Page) (c : ApiCall) (r : Response) :
  server c = Resolve (Some r) ->
  truthy (resp_documentId r) = false ->
  (forall files, In (call c) (trace (fileUpload p files)) ->
     ~ In startPolling (trace (fileUpload p files)) /\
     lastDocumentId (settle p (trace (fileUpload p files))) = lastDocumentId p /\
     (user p <> None ->
      exists msg, uploadResult (settle p (trace (fileUpload p files))) =
                    Some {| success := resp_success r; message := msg |})) /\
  (forall urlData, In (call c) (trace (urlUpload p urlData)) ->
     ~ In startPolling (trace (urlUpload p urlData)) /\
     lastDocumentId (settle p (trace (urlUpload p urlData))) = lastDocumentId p /\
     (user p <> None ->
      exists msg, uploadResult (settle p (trace (urlUpload p urlData))) =
                    Some {| success := resp_success r; message := msg |})).
Proof.
  intros Hserver Hnoid. split.
  - intros files Hin.
    destruct (fileUpload_call_inv _ _ _ Hin)
      as (file & rest & -> & Hsize & Hgate & [(result & Hsome & Hread & ->) | (Hsome & ->)]);
      clear Hin; unfold handleFileUpload, submitFile; rewrite Hsize, Hgate, Hsome;
      run_handler; rewrite ?Hread; run_handler; rewrite Hserver; run_handler.
    + destruct (resp_documentId r) as [d|]; [rewrite Hnoid|]; run_handler;
        destruct (resp_success r); run_handler;
        (split; [intros Hin; find_call Hin | split; [reflexivity | intros _; eexists; reflexivity]]).
    + destruct (user p); [discriminate Hsome|].
      destruct (resp_success r), (recaptchaRef p); run_handler;
        (split; [intros Hin; find_call Hin | split; [reflexivity | intros H; congruence]]).
  - intros urlData Hin.
    destruct (urlUpload_call_inv _ _ _ Hin) as [Hgate ->]. clear Hin.
    unfold handleUrlUpload. rewrite Hgate.
    destruct (user p) as [u|]; cbn [some_user]; run_handler; rewrite Hserver; run_handler.
    + destruct (resp_documentId r) as [d|]; [rewrite Hnoid|]; run_handler;
        destruct (resp_success r); run_handler;
        (split; [intros Hin; find_call Hin | split; [reflexivity | intros _; eexists; reflexivity]]).
    + destruct (resp_success r), (recaptchaRef p); run_handler;
        (split; [intros Hin; find_call Hin | split; [reflexivity | intros H; congruence]]).
Qed.

(** X8: the handlers navigate only after an anonymous submission that the
    server answered with success, and only to [/restaurant-details/]
    followed by the [uploadId] of that answer; a local rejection, a failure
    response, a transport error or a session never lead to a navigation. *)
Theorem navigation_only_after_anonymous_success (p : Page) (path : string) :
  (forall files, In (navigate path) (trace (fileUpload p files)) ->
     user p = None /\
     exists c r,
       In (call c) (trace (fileUpload p files)) /\
       server c = Resolve (Some r) /\ resp_success r = true /\
       path = ("/restaurant-details/" ++ template (resp_uploadId r))%string) /\
  (forall urlData, In (navigate path) (trace (urlUpload p urlData)) ->
     user p = None /\
     exists c r,
       In (call c) (trace (urlUpload p urlData)) /\
       server c = Resolve (Some r) /\ resp_success r = true /\
       path = ("/restaurant-details/" ++ template (resp_uploadId r))%string).
Proof.
  split.
  - intros [|file rest] Hin; [destruct Hin|]. revert Hin.
    split_branches; intros Hin; find_call Hin;
      (split; [reflexivity|]); eexists; eexists;
      (split; [cbn; auto 10|]); (split; [eassumption|]); (split; [assumption | reflexivity]).
  - intros urlData Hin. revert Hin.
    split_branches; intros Hin; find_call Hin;
      (split; [reflexivity|]); eexists; eexists;
      (split; [cbn; auto 10|]); (split; [eassumption|]); (split; [assumption | reflexivity]).
Qed.

(** X9: every anonymous submission answered with success navigates, also
    when the answer carries no [uploadId]: the path then ends in
    ["undefined"].  No result message is set: the result stays cleared. *)
Theorem anonymous_success_always_navigates (p : Page) (c : ApiCall) (r : Response) :
  user p = None ->
  server c = Resolve (Some r) ->
  resp_success r = true ->
  (forall files, In (call c) (trace (fileUpload p files)) ->
     In (navigate ("/restaurant-details/" ++ template (resp_uploadId r))%string)
        (trace (fileUpload p files)) /\
     (resp_uploadId r = None ->
      In (navigate "/restaurant-details/undefined") (trace (fileUpload p files))) /\
     uploadResult (settle p (trace (fileUpload p files))) = None) /\
  (forall urlData, In (call c) (trace (urlUpload p urlData)) ->
     In (navigate ("/restaurant-details/" ++ template (resp_uploadId r))%string)
        (trace (urlUpload p urlData)) /\
     (resp_uploadId r = None ->
      In (navigate "/restaurant-details/undefined") (trace (urlUpload p urlData))) /\
     uploadResult (settle p (trace (urlUpload p urlData))) = None).
Proof.
  intros Huser Hserver Hok.
  assert (Hsome : some_user (user p) = false) by (rewrite Huser; reflexivity).
  split.
  - intros files Hin.
    destruct (fileUpload_call_inv _ _ _ Hin)
      as (file & rest & -> & Hsize & Hgate & [(result & Hauth & _) | (_ & ->)]);
      [congruence|].
    clear Hin. unfold handleFileUpload, submitFile. rewrite Hsize, Hgate, Hsome.
    run_handler. rewrite Hserver. run_handler. rewrite Hok.
    destruct (recaptchaRef p); run_handler;
      (split; [cbn; auto 10 | split; [intros ->; cbn; auto 10 | reflexivity]]).
  - intros urlData Hin.
    destruct (urlUpload_call_inv _ _ _ Hin) as [Hgate Hc]. rewrite Hsome in Hc. subst c.
    clear Hin. unfold handleUrlUpload. rewrite Hgate, Hsome.
    run_handler. rewrite Hserver. run_handler. rewrite Hok.
    destruct (recaptchaRef p); run_handler;
      (split; [cbn; auto 10 | split; [intros ->; cbn; auto 10 | reflexivity]]).
Qed.

(** X10: when the call resolves to [null] or [undefined], reading
    [response.success] throws inside the [try]; the handler shows its own
    generic failure message, records no document identifier, does not
    navigate and clears the busy flag. *)
Theorem null_response_shows_generic_failure (p : Page) (c : ApiCall) :
  server c = Resolve None ->
  (forall files, In (call c) (trace (fileUpload p files)) ->
     uploadResult (settle p (trace (fileUpload p files))) =
       Some {| success := false; message := msg_uploadError_file |} /\
     lastDocumentId (settle p (trace (fileUpload p files))) = lastDocumentId p /\
     existsb is_navigation (trace (fileUpload p files)) = false /\
     uploadInProgress (settle p (trace (fileUpload p files))) = false) /\
  (forall urlData, In (call c) (trace (urlUpload p urlData)) ->
     uploadResult (settle p (trace (urlUpload p urlData))) =
       Some {| success := false; message := msg_uploadError_url |} /\
     lastDocumentId (settle p (trace (urlUpload p urlData))) = lastDocumentId p /\
     existsb is_navigation (trace (urlUpload p urlData)) = false /\
     uploadInProgress (settle p (trace (urlUpload p urlData))) = false).
Proof.
  intros Hserver. split.
  - intros files Hin.
    destruct (fileUpload_call_inv _ _ _ Hin)
      as (file & rest & -> & Hsize & Hgate & [(result & Hsome & Hread & ->) | (Hsome & ->)]);
      clear Hin; unfold handleFileUpload, submitFile; rewrite Hsize, Hgate, Hsome;
      run_handler; rewrite ?Hread; run_handler; rewrite Hserver; run_handler;
      repeat split.
  - intros urlData Hin.
    destruct (urlUpload_call_inv _ _ _ Hin) as [Hgate ->]. clear Hin.
    unfold handleUrlUpload. rewrite Hgate.
    destruct (some_user (user p)); run_handler; rewrite Hserver; run_handler;
      repeat split.
Qed.

(** X11: with a session, when the file passes the size check but cannot be
    read, nothing is sent: the handler shows the generic file failure
    message and clears the busy flag. *)
Theorem unreadable_file_is_not_sent (p : Page) (u : User) (file : File) (rest : list File) :
  user p = Some u ->
  exceedsMaxSize file = false ->
  fileReader file = None ->
  trace (fileUpload p (file :: rest)) =
    [setUploadInProgress true; setUploadResult None; readAsDataURL file;
     setUploadResult (failure msg_uploadError_file); setUploadInProgress false] /\
  existsb is_network (trace (fileUpload p (file :: rest))) = false /\
  uploadResult (settle p (trace (fileUpload p (file :: rest)))) =
    Some {| success := false; message := msg_uploadError_file |}.
Proof.
  intros Huser Hsize Hread.
  unfold handleFileUpload, submitFile. rewrite Hsize, Huser. run_handler.
  rewrite Hread. run_handler. repeat split.
Qed.

(** *** The content sent for a file: [result.split(',')[1]] *)

Lemma includes_comma_cons (c : ascii) (s : string) :
  includes "," (String c s) = Ascii.eqb c "," || includes "," s.
Proof.
  cbn [includes prefix].
  destruct (ascii_dec "," c) as [<- | Hne].
  - destruct s; reflexivity.
  - destruct (Ascii.eqb_spec c ","); [congruence | reflexivity].
Qed.

Lemma upto_comma_no_comma (a b : string) :
  includes "," a = false ->
  upto_comma a = a /\ upto_comma (a ++ "," ++ b) = a.
Proof.
  induction a as [|c a IH]; intros H; [split; reflexivity|].
  rewrite includes_comma_cons in H. apply orb_false_iff in H as [Hc Ha].
  destruct (IH Ha) as [IH1 IH2].
  cbn [upto_comma append]. rewrite Hc. split; f_equal; assumption.
Qed.

Lemma split_comma_1_after_header (header tail : string) :
  includes "," header = false ->
  split_comma_1 (header ++ "," ++ tail) = Some (upto_comma tail).
Proof.
  induction header as [|c header IH]; intros H; [reflexivity|].
  rewrite includes_comma_cons in H. apply orb_false_iff in H as [Hc Hh].
  cbn [split_comma_1 append]. rewrite Hc. apply IH. exact Hh.
Qed.

Lemma split_comma_1_None (s : string) :
  split_comma_1 s = None <-> includes "," s = false.
Proof.
  induction s as [|c s IH].
  - split; reflexivity.
  - rewrite includes_comma_cons. cbn [split_comma_1].
    destruct (Ascii.eqb c ","); cbn [orb]; [split; discriminate | exact IH].
Qed.

(** X12: the content extracted from a data URL.  When neither the header nor
    the payload contains a comma, [header,payload] gives the payload; a
    second comma cuts the payload short; and the content is [undefined]
    exactly when the string has no comma at all. *)
Theorem split_comma_1_extracts_payload :
  (forall header payload,
     includes "," header = false -> includes "," payload = false ->
     split_comma_1 (header ++ "," ++ payload) = Some payload) /\
  (forall header payload more,
     includes "," header = false -> includes "," payload = false ->
     split_comma_1 (header ++ "," ++ payload ++ "," ++ more) = Some payload) /\
  (forall s, split_comma_1 s = None <-> includes "," s = false).
Proof.
  split; [|split].
  - intros header payload Hh Hp. rewrite (split_comma_1_after_header _ _ Hh).
    f_equal. apply (upto_comma_no_comma payload ""). exact Hp.
  - intros header payload more Hh Hp. rewrite (split_comma_1_after_header _ _ Hh).
    f_equal. apply upto_comma_no_comma. exact Hp.
  - apply split_comma_1_None.
Qed.

(** X13: with a session, a file within the limit whose data URL is
    [header,payload] (no comma in either part) is sent to the authenticated
    endpoint with its own name, size and type and with the payload as
    content; when the data URL has no comma the endpoint is still called,
    with no content. *)
Theorem authenticated_file_is_sent_with_payload
    (p : Page) (u : User) (file : File) (rest : list File) :
  user p = Some u ->
  exceedsMaxSize file = false ->
  (forall header payload,
     fileReader file = Some (header ++ "," ++ payload)%string ->
     includes "," header = false -> includes "," payload = false ->
     In (call (api_uploadMenu (name file) (size file) (type file) (Some payload)))
        (trace (fileUpload p (file :: rest)))) /\
  (forall result,
     fileReader file = Some result -> includes "," result = false ->
     In (call (api_uploadMenu (name file) (size file) (type file) None))
        (trace (fileUpload p (file :: rest)))).
Proof.
  intros Huser Hsize.
  assert (Hsent : forall result, fileReader file = Some result ->
            In (call (api_uploadMenu (name file) (size file) (type file) (split_comma_1 result)))
               (trace (fileUpload p (file :: rest)))).
  { intros result Hread. unfold handleFileUpload, submitFile.
    rewrite Hsize, Huser. run_handler. rewrite Hread.
    split_branches; cbn; auto 10. }
  split.
  - intros header payload Hread Hh Hp.
    assert (Hpayload : split_comma_1 (header ++ "," ++ payload) = Some payload).
    { rewrite (split_comma_1_after_header _ _ Hh).
      f_equal. apply (upto_comma_no_comma payload ""). exact Hp. }
    rewrite <- Hpayload. apply Hsent. exact Hread.
  - intros result Hread Hno.
    apply split_comma_1_None in Hno. rewrite <- Hno. apply Hsent. exact Hread.
Qed.

(** *** One handler after another *)

Lemma unverified_page_is_rejected (p : Page) :
  user p = None ->
  recaptchaVerified p = false ->
  isDev env = false ->
  (forall urlData,
     trace (urlUpload p urlData) = [setUploadResult (failure msg_recaptchaRequired)]) /\
  (forall files, existsb is_network (trace (fileUpload p files)) = false).
Proof.
  intros Huser Hflag Hdev. split.
  - intros urlData. unfold handleUrlUpload. rewrite Huser, Hflag, Hdev. reflexivity.
  - intros [|file rest]; [reflexivity|]. unfold handleFileUpload, submitFile.
    rewrite Huser, Hflag, Hdev. destruct (exceedsMaxSize file); reflexivity.
Qed.

(** X14: after an anonymous submission that the server answered, the next
    submission from the resulting page is rejected locally when
    verification is enforced: the URL handler only sets the
    verification-required result and neither handler makes a network call,
    until the widget reports a new token. *)
Theorem answered_submission_requires_new_verification
    (p : Page) (c : ApiCall) (r : Response) :
  user p = None ->
  isDev env = false ->
  server c = Resolve (Some r) ->
  (forall files, In (call c) (trace (fileUpload p files)) ->
     (forall urlData,
        trace (urlUpload (settle p (trace (fileUpload p files))) urlData) =
          [setUploadResult (failure msg_recaptchaRequired)]) /\
     (forall files',
        existsb is_network
          (trace (fileUpload (settle p (trace (fileUpload p files))) files')) = false)) /\
  (forall urlData, In (call c) (trace (urlUpload p urlData)) ->
     (forall urlData',
        trace (urlUpload (settle p (trace (urlUpload p urlData))) urlData') =
          [setUploadResult (failure msg_recaptchaRequired)]) /\
     (forall files',
        existsb is_network
          (trace (fileUpload (settle p (trace (urlUpload p urlData))) files')) = false)).
Proof.
  intros Huser Hdev Hserver.
  destruct (anonymous_response_resets_verification p c r Huser Hserver) as [Hfile Hurl].
  split.
  - intros files Hin. apply unverified_page_is_rejected.
    + rewrite settle_user. exact Huser.
    + apply (Hfile files Hin).
    + exact Hdev.
  - intros urlData Hin. apply unverified_page_is_rejected.
    + rewrite settle_user. exact Huser.
    + apply (Hurl urlData Hin).
    + exact Hdev.
Qed.

(** X15: for an anonymous visitor, what the widget last reported decides the
    next URL submission when verification is enforced: the request is sent
    exactly when the reported token is non-empty ([null] on expiry blocks
    it); on a development / no-site-key configuration it is always sent. *)
Theorem widget_report_decides_url_submission
    (p : Page) (token : option string) (urlData : UrlData) :
  user p = None ->
  (isDev env = false ->
   existsb is_network
     (trace (urlUpload (settle p (handleRecaptchaChange token)) urlData)) = truthy token) /\
  (isDev env = true ->
   existsb is_network
     (trace (urlUpload (settle p (handleRecaptchaChange token)) urlData)) = true).
Proof.
  intros Huser.
  assert (Hu : user (settle p (handleRecaptchaChange token)) = None)
    by (rewrite settle_user; exact Huser).
  assert (Hv : recaptchaVerified (settle p (handleRecaptchaChange token)) = truthy token)
    by apply handleRecaptchaChange_spec.
  split; intros Hdev; unfold handleUrlUpload; rewrite Hu, Hv, Hdev;
    destruct (truthy token); cbn [some_user negb andb];
    try reflexivity; split_branches; reflexivity.
Qed.

(** X16: when the server answers an anonymous submission, with success or
    with a failure response, the verified flag is false afterwards, and the
    widget has been reset: the token a following submission would send is
    ["dev-token"], not the one just used. *)
Theorem answered_anonymous_submission_resets_verification
    (p : Page) (c : ApiCall) (r : Response) :
  user p = None ->
  server c = Resolve (Some r) ->
  (forall files, In (call c) (trace (fileUpload p files)) ->
     recaptchaVerified (settle p (trace (fileUpload p files))) = false /\
     recaptchaToken (settle p (trace (fileUpload p files))) = "dev-token" /\
     (recaptchaRef p <> None -> In recaptcha_reset (trace (fileUpload p files)))) /\
  (forall urlData, In (call c) (trace (urlUpload p urlData)) ->
     recaptchaVerified (settle p (trace (urlUpload p urlData))) = false /\
     recaptchaToken (settle p (trace (urlUpload p urlData))) = "dev-token" /\
     (recaptchaRef p <> None -> In recaptcha_reset (trace (urlUpload p urlData)))).
Proof.
  intros Huser Hserver.
  assert (Hsome : some_user (user p) = false) by (rewrite Huser; reflexivity).
  destruct (anonymous_response_resets_verification p c r Huser Hserver) as [Hfile Hurl].
  split.
  - intros files Hin. destruct (Hfile files Hin) as [Hflag Hwidget].
    split; [exact Hflag | split].
    + unfold recaptchaToken. rewrite Hwidget. destruct (recaptchaRef p); reflexivity.
    + intros Hmounted.
      destruct (fileUpload_call_inv _ _ _ Hin)
        as (file & rest & -> & Hsize & Hgate & [(result & Hauth & _) | (_ & ->)]);
        [congruence|].
      unfold handleFileUpload, submitFile. rewrite Hsize, Hgate, Hsome.
      run_handler. rewrite Hserver. run_handler.
      destruct (resp_success r), (recaptchaRef p); run_handler;
        solve [cbn; auto 10 | congruence].
  - intros urlData Hin. destruct (Hurl urlData Hin) as [Hflag Hwidget].
    split; [exact Hflag | split].
    + unfold recaptchaToken. rewrite Hwidget. destruct (recaptchaRef p); reflexivity.
    + intros Hmounted.
      destruct (urlUpload_call_inv _ _ _ Hin) as [Hgate Hc]. rewrite Hsome in Hc. subst c.
      unfold handleUrlUpload. rewrite Hgate, Hsome.
      run_handler. rewrite Hserver. run_handler.
      destruct (resp_success r), (recaptchaRef p); run_handler;
        solve [cbn; auto 10 | congruence].
Qed.

(** X17: what the page renders after a submission with a session that the
    server answered: the result alert is green exactly when the response
    reported success, the "Go to My Menus" button shows exactly then, the
    inputs are enabled again, and the status line shows when the response
    carried a document identifier. *)
Theorem authenticated_answer_is_rendered (p : Page) (u : User) (c : ApiCall) (r : Response) :
  user p = Some u ->
  server c = Resolve (Some r) ->
  (forall files, In (call c) (trace (fileUpload p files)) ->
     resultAlertClassName (settle p (trace (fileUpload p files))) =
       Some (if resp_success r then "border-green-200 bg-green-50"
             else "border-red-200 bg-red-50") /\
     rendersGoToMenus (settle p (trace (fileUpload p files))) = resp_success r /\
     disabled (settle p (trace (fileUpload p files))) = false /\
     (truthy (resp_documentId r) = true ->
      rendersStatusLine (settle p (trace (fileUpload p files))) = true)) /\
  (forall urlData, In (call c) (trace (urlUpload p urlData)) ->
     resultAlertClassName (settle p (trace (urlUpload p urlData))) =
       Some (if resp_success r then "border-green-200 bg-green-50"
             else "border-red-200 bg-red-50") /\
     rendersGoToMenus (settle p (trace (urlUpload p urlData))) = resp_success r /\
     disabled (settle p (trace (urlUpload p urlData))) = false /\
     (truthy (resp_documentId r) = true ->
      rendersStatusLine (settle p (trace (urlUpload p urlData))) = true)).
Proof.
  intros Huser Hserver.
  assert (Hsome : some_user (user p) = true) by (rewrite Huser; reflexivity).
  assert (Hgate : gate_closed p = false) by (rewrite Hsome; reflexivity).
  unfold resultAlertClassName, rendersGoToMenus, rendersStatusLine, disabled.
  split.
  - intros files Hin. rewrite settle_user, Hsome.
    destruct (fileUpload_call_inv _ _ _ Hin)
      as (file & rest & -> & Hsize & _ & [(result & _ & Hread & ->) | (Hanon & _)]);
      [|congruence].
    clear Hin. unfold handleFileUpload, submitFile. rewrite Hsize, Hgate, Hsome.
    run_handler. rewrite Hread. run_handler. rewrite Hserver. run_handler.
    destruct (resp_documentId r) as [d|]; [destruct (truthy (Some d)) eqn:Hd|];
      run_handler; destruct (resp_success r); run_handler; cbn;
      repeat split; try discriminate; try (intros _; exact Hd).
  - intros urlData Hin. rewrite settle_user, Hsome.
    destruct (urlUpload_call_inv _ _ _ Hin) as [_ Hc]. rewrite Hsome in Hc. subst c.
    clear Hin. unfold handleUrlUpload. rewrite Hgate, Hsome.
    run_handler. rewrite Hserver. run_handler.
    destruct (resp_documentId r) as [d|]; [destruct (truthy (Some d)) eqn:Hd|];
      run_handler; destruct (resp_success r); run_handler; cbn;
      repeat split; try discriminate; try (intros _; exact Hd).
Qed.

(** X18: for an anonymous visitor whose verified flag is false, a URL
    submission reaches the server exactly when the page shows the
    development notice, and is rejected locally exactly when the page shows
    the verification widget. *)
Theorem unverified_url_submission_follows_notice (p : Page) (urlData : UrlData) :
  user p = None ->
  recaptchaVerified p = false ->
  existsb is_network (trace (urlUpload p urlData)) = rendersDevNotice env p /\
  existsb is_network (trace (urlUpload p urlData)) = negb (rendersRecaptcha env p).
Proof.
  intros Huser Hflag.
  rewrite (rendersRecaptcha_iff_gate env p Huser), negb_involutive.
  assert (Hnotice : rendersDevNotice env p = isDev env)
    by (unfold rendersDevNotice, isDev; rewrite Huser; reflexivity).
  rewrite Hnotice. unfold handleUrlUpload. rewrite Huser, Hflag.
  destruct (isDev env); cbn [some_user negb andb];
    [split_branches; split; reflexivity | split; reflexivity].
Qed.

(** X19: the session decides which parts of the page can show.  Without a
    session: the create-account call to action and the public mode of the
    inputs, never the logged-in message, the status line or the
    "Go to My Menus" button.  With a session: the logged-in message, never
    the widget, the development notice or the create-account call to
    action.  The "Go to My Menus" button only ever shows together with a
    green result alert. *)
Theorem session_decides_what_shows (p : Page) :
  (user p = None ->
     rendersCreateAccount p = true /\ isPublicMode p = true /\
     rendersLoggedInMessage p = false /\ rendersStatusLine p = false /\
     rendersGoToMenus p = false) /\
  (user p <> None ->
     rendersLoggedInMessage p = true /\ isPublicMode p = false /\
     rendersRecaptcha env p = false /\ rendersDevNotice env p = false /\
     rendersCreateAccount p = false) /\
  (rendersGoToMenus p = true ->
     user p <> None /\
     resultAlertClassName p = Some "border-green-200 bg-green-50").
Proof.
  unfold rendersCreateAccount, isPublicMode, rendersLoggedInMessage, rendersStatusLine,
    rendersGoToMenus, rendersRecaptcha, rendersDevNotice, resultAlertClassName.
  destruct (user p) as [u|]; cbn [some_user negb andb].
  - split; [discriminate|]. split; [intros _; repeat split|].
    destruct (uploadResult p) as [r|]; [|discriminate].
    intros ->. split; [discriminate | reflexivity].
  - split; [intros _; repeat split|]. split; [congruence | discriminate].
Qed.


End Properties.

(** ** The handlers on concrete submissions *)

(** C1: an anonymous visitor with a solved challenge submits, and the server
    call fails with a transport error (status 429).  The handler goes from
    the call straight to [catch] and [finally]: the trace holds neither a
    widget reset nor [setRecaptchaVerified false], the verified flag is still
    true afterwards and the widget still holds the token it had.  This is so
    for the URL handler and for the file handler. *)
Theorem C1_transport_error_skips_reset :
  trace (handleUrlUpload t_default (server_rejects (error_with_status 429))
           env_production page_verified menu_url) =
    [setUploadInProgress true; setUploadResult None;
     call (parsePublicUrl "https://example.com/menu" "tok");
     setUploadResult (failure "Too many uploads. Please wait before trying again.");
     setUploadInProgress false] /\
  recaptchaVerified
    (settle page_verified
       (trace (handleUrlUpload t_default (server_rejects (error_with_status 429))
                 env_production page_verified menu_url))) = true /\
  recaptchaRef
    (settle page_verified
       (trace (handleUrlUpload t_default (server_rejects (error_with_status 429))
                 env_production page_verified menu_url))) = widget_with "tok" /\
  trace (handleFileUpload t_default reader_ok (server_rejects (error_with_status 429))
           env_production page_verified [file_50KB]) =
    [setUploadInProgress true; setUploadResult None;
     call (uploadPublicMenu file_50KB "tok");
     setUploadResult (failure "Too many uploads. Please wait before trying again.");
     setUploadInProgress false] /\
  recaptchaVerified
    (settle page_verified
       (trace (handleFileUpload t_default reader_ok (server_rejects (error_with_status 429))
                 env_production page_verified [file_50KB]))) = true /\
  recaptchaRef
    (settle page_verified
       (trace (handleFileUpload t_default reader_ok (server_rejects (error_with_status 429))
                 env_production page_verified [file_50KB]))) = widget_with "tok".
Proof. repeat split. Qed.

(** The same visitor when the server answers, with success or with a
    failure response: the widget is reset and the flag is back to false. *)
Example anonymous_answer_resets :
  trace (handleUrlUpload t_default (server_answers response_u1)
           env_production page_verified menu_url) =
    [setUploadInProgress true; setUploadResult None;
     call (parsePublicUrl "https://example.com/menu" "tok");
     navigate "/restaurant-details/u1";
     recaptcha_reset; setRecaptchaVerified false; setUploadInProgress false] /\
  trace (handleUrlUpload t_default (server_answers (response_refused None))
           env_production page_verified menu_url) =
    [setUploadInProgress true; setUploadResult None;
     call (parsePublicUrl "https://example.com/menu" "tok");
     setUploadResult (failure "URL parsing failed. Please try again.");
     recaptcha_reset; setRecaptchaVerified false; setUploadInProgress false].
Proof. split; reflexivity. Qed.

(** The two scenarios of the specification. *)
Example scenario_authenticated_50KB_file :
  trace (handleFileUpload t_default reader_ok (server_answers response_doc1)
           env_production page_authenticated [file_50KB]) =
    [setUploadInProgress true; setUploadResult None; readAsDataURL file_50KB;
     call (api_uploadMenu "menu.pdf" (SizeNumber 51200) "application/pdf" (Some "JVBERi0="));
     setLastDocumentId "doc1"; startPolling;
     setUploadResult (Some {| success := true;
       message := "Upload successful! Check your dashboard for analysis results." |});
     setUploadInProgress false].
Proof. reflexivity. Qed.

Example scenario_anonymous_url_development :
  trace (handleUrlUpload t_default (server_answers response_u1)
           env_development page_development menu_url) =
    [setUploadInProgress true; setUploadResult None;
     call (parsePublicUrl "https://example.com/menu" "dev-token");
     navigate "/restaurant-details/u1";
     setRecaptchaVerified false; setUploadInProgress false].
Proof. reflexivity. Qed.


(** C4, the claim as stated fails: an anonymous visitor without a verified
    token, development flag off and site key configured, submits an 11 MiB
    file; the result shown is the file-too-large message, not the
    verification-required one. *)
Lemma C4_oversized_file_gets_size_message :
  user page_unverified = None /\
  recaptchaVerified page_unverified = false /\
  isDev env_production = false /\
  uploadResult
    (settle page_unverified
       (trace (handleFileUpload t_default reader_ok (server_answers response_u1)
                 env_production page_unverified [file_11MiB]))) =
    failure "Maximum upload size is 10 MB" /\
  uploadResult
    (settle page_unverified
       (trace (handleFileUpload t_default reader_ok (server_answers response_u1)
                 env_production page_unverified [file_11MiB]))) <>
    failure (t_default "publicUpload.recaptchaRequired"
               "Please complete the reCAPTCHA verification to proceed.").
Proof. repeat split. discriminate. Qed.

(** C5, the claim as stated fails: an anonymous visitor holding a verified
    token submits an 11 MiB file; the public endpoint is not called and the
    page does not navigate. *)
Lemma C5_oversized_file_never_reaches_public_endpoint :
  user page_verified = None /\
  recaptchaVerified page_verified = true /\
  existsb is_network
    (trace (handleFileUpload t_default reader_ok (server_answers response_u1)
              env_production page_verified [file_11MiB])) = false /\
  existsb is_navigation
    (trace (handleFileUpload t_default reader_ok (server_answers response_u1)
              env_production page_verified [file_11MiB])) = false.
Proof. repeat split. Qed.

(** ** The general statements at concrete submissions *)

(** C3 at an 11 MiB file. *)
Lemma C3_witness :
  size file_11MiB = SizeNumber (11 * 1024 * 1024) /\
  11 * 1024 * 1024 > 10 * 1024 * 1024 /\
  trace (handleFileUpload t_default reader_ok (server_answers response_u1)
           env_production page_verified [file_11MiB]) =
    [setUploadResult (failure "Maximum upload size is 10 MB")].
Proof.
  split; [reflexivity | split; [reflexivity |]].
  apply (C3_oversized_file_rejected_locally t_default reader_ok (server_answers response_u1)
           env_production page_verified file_11MiB [] (11 * 1024 * 1024));
    reflexivity.
Defined.

(** C4 at an unverified visitor on a production build, for a URL and for a
    50 KB file. *)
Lemma C4_witness :
  user page_unverified = None /\
  recaptchaVerified page_unverified = false /\
  DEV env_production = false /\
  truthy (VITE_RECAPTCHA_SITE_KEY env_production) = true /\
  trace (handleUrlUpload t_default (server_answers response_u1)
           env_production page_unverified menu_url) =
    [setUploadResult (failure "Please complete the reCAPTCHA verification to proceed.")] /\
  trace (handleFileUpload t_default reader_ok (server_answers response_u1)
           env_production page_unverified [file_50KB]) =
    [setUploadResult (failure "Please complete the reCAPTCHA verification to proceed.")].
Proof.
  destruct (C4_unverified_anonymous_rejected_locally t_default reader_ok
              (server_answers response_u1) env_production page_unverified
              eq_refl eq_refl eq_refl eq_refl) as (Hurl & Hfile & _).
  do 4 (split; [reflexivity|]).
  split.
  - exact (Hurl menu_url).
  - exact (Hfile file_50KB [] eq_refl).
Defined.

(** C5 at a verified visitor whose submission the server accepts with upload
    identifier ["u1"]. *)
Lemma C5_witness :
  user page_verified = None /\
  (recaptchaVerified page_verified = true \/ isDev env_production = true) /\
  recaptchaToken page_verified = "tok" /\
  trace (handleUrlUpload t_default (server_answers response_u1)
           env_production page_verified menu_url) =
    [setUploadInProgress true; setUploadResult None;
     call (parsePublicUrl "https://example.com/menu" "tok");
     navigate "/restaurant-details/u1";
     recaptcha_reset; setRecaptchaVerified false; setUploadInProgress false] /\
  trace (handleFileUpload t_default reader_ok (server_answers response_u1)
           env_production page_verified [file_50KB]) =
    [setUploadInProgress true; setUploadResult None;
     call (uploadPublicMenu file_50KB "tok");
     navigate "/restaurant-details/u1";
     recaptcha_reset; setRecaptchaVerified false; setUploadInProgress false].
Proof.
  destruct (C5_anonymous_submission_uses_public_endpoint t_default reader_ok
              (server_answers response_u1) env_production page_verified
              eq_refl (or_introl eq_refl))
    as ((Htoken & _) & _ & _ & Hurl & Hfile).
  split; [reflexivity|].
  split; [left; reflexivity|].
  split; [|split].
  - apply (Htoken {| getValue := Some "tok" |} "tok"); [reflexivity | reflexivity | discriminate].
  - exact (Hurl menu_url response_u1 "u1" eq_refl eq_refl eq_refl).
  - exact (Hfile file_50KB [] response_u1 "u1" eq_refl eq_refl eq_refl eq_refl).
Defined.


(** C6 at a file submission that the server rejects with status 413. *)
Lemma C6_witness :
  server_rejects (error_with_status 413) (uploadPublicMenu file_50KB "tok") =
    Reject (error_with_status 413) /\
  uploadResult
    (settle page_verified
       (trace (handleFileUpload t_default reader_ok (server_rejects (error_with_status 413))
                 env_production page_verified [file_50KB]))) =
    Some {| success := false; message := "Maximum upload size is 10 MB" |}.
Proof.
  split; [reflexivity|].
  destruct (C6_transport_error_messages t_default reader_ok
              (server_rejects (error_with_status 413)) env_production page_verified
              (uploadPublicMenu file_50KB "tok") (error_with_status 413) eq_refl)
    as (Hfile & _).
  destruct (Hfile [file_50KB]) as (msg & Hshown & _ & H413 & _).
  - cbn. right. right. left. reflexivity.
  - rewrite Hshown, (H413 eq_refl). reflexivity.
Defined.

(** C7 at a URL submission refused by the server with a message of its own. *)
Lemma C7_witness :
  server_answers (response_refused (Some "Unsupported menu format"))
    (parsePublicUrl "https://example.com/menu" "tok") =
    Resolve (Some (response_refused (Some "Unsupported menu format"))) /\
  resp_success (response_refused (Some "Unsupported menu format")) = false /\
  uploadResult
    (settle page_verified
       (trace (handleUrlUpload t_default
                 (server_answers (response_refused (Some "Unsupported menu format")))
                 env_production page_verified menu_url))) =
    Some {| success := false; message := "Unsupported menu format" |}.
Proof.
  split; [reflexivity | split; [reflexivity|]].
  destruct (C7_server_failure_message t_default reader_ok
              (server_answers (response_refused (Some "Unsupported menu format")))
              env_production page_verified
              (parsePublicUrl "https://example.com/menu" "tok")
              (response_refused (Some "Unsupported menu format")) eq_refl eq_refl)
    as (_ & Hurl).
  destruct (Hurl menu_url) as (msg & Hshown & Hserver & _).
  - cbn. right. right. left. reflexivity.
  - rewrite Hshown, (Hserver "Unsupported menu format" eq_refl); [reflexivity | discriminate].
Defined.

(** C8 at an anonymous visitor, on a production and on a development build. *)
Lemma C8_witness :
  user page_unverified = None /\
  rendersRecaptcha env_production page_unverified = true /\
  rendersDevNotice env_production page_unverified = false /\
  xorb (rendersRecaptcha env_development page_development)
       (rendersDevNotice env_development page_development) = true.
Proof.
  do 3 (split; [reflexivity|]).
  exact (proj1 (proj2 (proj2 (C8_widget_and_notice_visibility env_development page_development)))
           eq_refl).
Defined.

(** C9 at a file object whose [size] is not a number. *)
Lemma C9_witness :
  size file_untyped_size = SizeNotNumber /\
  handleFileUpload t_default reader_ok (server_answers response_u1)
    env_production page_verified [file_untyped_size] =
  submitFile t_default reader_ok (server_answers response_u1)
    env_production page_verified file_untyped_size.
Proof.
  split; [reflexivity|].
  exact (proj1 (C9_size_check_only_for_numbers t_default reader_ok (server_answers response_u1)
                  env_production page_verified file_untyped_size []) eq_refl).
Defined.

(** ** The further properties at concrete submissions *)

(** X1 at a verified visitor's URL submission. *)
Lemma request_sent_once_while_busy_witness :
  In (call (parsePublicUrl "https://example.com/menu" "tok"))
     (trace (handleUrlUpload t_default (server_answers response_u1)
               env_production page_verified menu_url)) /\
  exists before after,
    trace (handleUrlUpload t_default (server_answers response_u1)
             env_production page_verified menu_url) =
      (before ++ call (parsePublicUrl "https://example.com/menu" "tok") :: after)%list /\
    existsb is_network before = false /\
    existsb is_network after = false /\
    uploadInProgress (settle page_verified before) = true /\
    uploadResult (settle page_verified before) = None.
Proof.
  assert (Hin : In (call (parsePublicUrl "https://example.com/menu" "tok"))
                  (trace (handleUrlUpload t_default (server_answers response_u1)
                            env_production page_verified menu_url)))
    by (cbn; auto 10).
  split; [exact Hin|].
  exact (proj2 (request_sent_once_while_busy t_default reader_ok (server_answers response_u1)
                  env_production page_verified _) menu_url Hin).
Defined.

(** X2 at a signed-in user's submission that the server rejects. *)
Lemma busy_flag_released_witness :
  uploadInProgress page_authenticated = false /\
  uploadInProgress
    (settle page_authenticated
       (trace (handleFileUpload t_default reader_ok (server_rejects (error_with_status 500))
                 env_production page_authenticated [file_50KB]))) = false.
Proof.
  split; [reflexivity|].
  exact (proj2 (proj1 (busy_flag_released t_default reader_ok
                         (server_rejects (error_with_status 500))
                         env_production page_authenticated) [file_50KB]) eq_refl).
Defined.

(** X4 at a verified visitor's file submission. *)
Lemma endpoint_matches_session_witness :
  In (call (uploadPublicMenu file_50KB "tok"))
     (trace (handleFileUpload t_default reader_ok (server_answers response_u1)
               env_production page_verified [file_50KB])) /\
  (user page_verified = None /\
   hd_error [file_50KB] = Some file_50KB /\
   "tok" = recaptchaToken page_verified).
Proof.
  assert (Hin : In (call (uploadPublicMenu file_50KB "tok"))
                  (trace (handleFileUpload t_default reader_ok (server_answers response_u1)
                            env_production page_verified [file_50KB])))
    by (cbn; auto 10).
  split; [exact Hin|].
  exact (proj1 (endpoint_matches_session t_default reader_ok (server_answers response_u1)
                  env_production page_verified _) [file_50KB] Hin).
Defined.

(** X5 at a signed-in user's file submission answered with ["doc1"]. *)
Lemma recorded_document_id_comes_from_response_witness :
  In (setLastDocumentId "doc1")
     (trace (handleFileUpload t_default reader_ok (server_answers response_doc1)
               env_production page_authenticated [file_50KB])) /\
  user page_authenticated <> None /\ "doc1" <> "".
Proof.
  assert (Hin : In (setLastDocumentId "doc1")
                  (trace (handleFileUpload t_default reader_ok (server_answers response_doc1)
                            env_production page_authenticated [file_50KB])))
    by (cbn; auto 10).
  split; [exact Hin|].
  destruct (proj1 (recorded_document_id_comes_from_response t_default reader_ok
                     (server_answers response_doc1) env_production page_authenticated "doc1")
              [file_50KB] Hin) as (Hsession & Hid & _).
  split; assumption.
Defined.

(** X6 at a verified visitor whose answer carries a document identifier. *)
Lemma anonymous_submission_never_polls_witness :
  user page_verified = None /\
  ~ In startPolling
      (trace (handleUrlUpload t_default (server_answers response_doc1)
                env_production page_verified menu_url)) /\
  lastDocumentId
    (settle page_verified
       (trace (handleUrlUpload t_default (server_answers response_doc1)
                 env_production page_verified menu_url))) = None.
Proof.
  split; [reflexivity|].
  destruct (proj2 (anonymous_submission_never_polls t_default reader_ok
                     (server_answers response_doc1) env_production page_verified eq_refl)
              menu_url) as (Hpoll & _ & Hid).
  split; [exact Hpoll | exact Hid].
Defined.

(** X7 at a signed-in user whose URL submission is refused without a
    document identifier. *)
Lemma response_without_document_id_starts_no_polling_witness :
  server_answers (response_refused None) (api_uploadMenuUrl "https://example.com/menu" "") =
    Resolve (Some (response_refused None)) /\
  truthy (resp_documentId (response_refused None)) = false /\
  ~ In startPolling
      (trace (handleUrlUpload t_default (server_answers (response_refused None))
                env_production page_authenticated menu_url)) /\
  lastDocumentId
    (settle page_authenticated
       (trace (handleUrlUpload t_default (server_answers (response_refused None))
                 env_production page_authenticated menu_url))) = None.
Proof.
  split; [reflexivity | split; [reflexivity|]].
  destruct (proj2 (response_without_document_id_starts_no_polling t_default reader_ok
                     (server_answers (response_refused None)) env_production
                     page_authenticated (api_uploadMenuUrl "https://example.com/menu" "")
                     (response_refused None) eq_refl eq_refl) menu_url)
    as (Hpoll & Hid & _).
  - cbn. auto 10.
  - split; [exact Hpoll | exact Hid].
Defined.

(** X8 at a verified visitor's URL submission accepted with ["u1"]. *)
Lemma navigation_only_after_anonymous_success_witness :
  In (navigate "/restaurant-details/u1")
     (trace (handleUrlUpload t_default (server_answers response_u1)
               env_production page_verified menu_url)) /\
  user page_verified = None.
Proof.
  assert (Hin : In (navigate "/restaurant-details/u1")
                  (trace (handleUrlUpload t_default (server_answers response_u1)
                            env_production page_verified menu_url)))
    by (cbn; auto 10).
  split; [exact Hin|].
  exact (proj1 (proj2 (navigation_only_after_anonymous_success t_default reader_ok
                         (server_answers response_u1) env_production page_verified _)
                  menu_url Hin)).
Defined.

(** X9 at a verified visitor whose accepted answer has no upload identifier. *)
Lemma anonymous_success_always_navigates_witness :
  user page_verified = None /\
  server_answers response_doc1 (parsePublicUrl "https://example.com/menu" "tok") =
    Resolve (Some response_doc1) /\
  resp_success response_doc1 = true /\
  resp_uploadId response_doc1 = None /\
  In (navigate "/restaurant-details/undefined")
     (trace (handleUrlUpload t_default (server_answers response_doc1)
               env_production page_verified menu_url)).
Proof.
  do 4 (split; [reflexivity|]).
  destruct (proj2 (anonymous_success_always_navigates t_default reader_ok
                     (server_answers response_doc1) env_production page_verified
                     (parsePublicUrl "https://example.com/menu" "tok") response_doc1
                     eq_refl eq_refl eq_refl) menu_url)
    as (_ & Hundefined & _).
  - cbn. auto 10.
  - exact (Hundefined eq_refl).
Defined.

(** X10 at a signed-in user's URL submission that resolves to [null]. *)
Lemma null_response_shows_generic_failure_witness :
  server_answers_null (api_uploadMenuUrl "https://example.com/menu" "") = Resolve None /\
  uploadResult
    (settle page_authenticated
       (trace (handleUrlUpload t_default server_answers_null
                 env_production page_authenticated menu_url))) =
    Some {| success := false; message := "URL parsing failed. Please try again." |}.
Proof.
  split; [reflexivity|].
  destruct (proj2 (null_response_shows_generic_failure t_default reader_ok
                     server_answers_null env_production page_authenticated
                     (api_uploadMenuUrl "https://example.com/menu" "") eq_refl) menu_url)
    as (Hshown & _).
  - cbn. auto 10.
  - exact Hshown.
Defined.

(** X11 at a signed-in user's 50 KB file that cannot be read. *)
Lemma unreadable_file_is_not_sent_witness :
  user page_authenticated = Some (mkUser "owner") /\
  exceedsMaxSize file_50KB = false /\
  reader_fails file_50KB = None /\
  existsb is_network
    (trace (handleFileUpload t_default reader_fails (server_answers response_doc1)
              env_production page_authenticated [file_50KB])) = false.
Proof.
  do 3 (split; [reflexivity|]).
  exact (proj1 (proj2 (unreadable_file_is_not_sent t_default reader_fails
                         (server_answers response_doc1) env_production page_authenticated
                         (mkUser "owner") file_50KB [] eq_refl eq_refl eq_refl))).
Defined.

(** X12 at the data URL of a PDF. *)
Lemma split_comma_1_extracts_payload_witness :
  includes "," "data:application/pdf;base64" = false /\
  includes "," "JVBERi0=" = false /\
  split_comma_1 "data:application/pdf;base64,JVBERi0=" = Some "JVBERi0=".
Proof.
  split; [reflexivity | split; [reflexivity|]].
  exact (proj1 split_comma_1_extracts_payload "data:application/pdf;base64" "JVBERi0="
           eq_refl eq_refl).
Defined.

(** X13 at a signed-in user's 50 KB PDF. *)
Lemma authenticated_file_is_sent_with_payload_witness :
  user page_authenticated = Some (mkUser "owner") /\
  exceedsMaxSize file_50KB = false /\
  reader_ok file_50KB = Some "data:application/pdf;base64,JVBERi0=" /\
  In (call (api_uploadMenu "menu.pdf" (SizeNumber 51200) "application/pdf" (Some "JVBERi0=")))
     (trace (handleFileUpload t_default reader_ok (server_answers response_doc1)
               env_production page_authenticated [file_50KB])).
Proof.
  do 3 (split; [reflexivity|]).
  exact (proj1 (authenticated_file_is_sent_with_payload t_default reader_ok
                  (server_answers response_doc1) env_production page_authenticated
                  (mkUser "owner") file_50KB [] eq_refl eq_refl)
           "data:application/pdf;base64" "JVBERi0=" eq_refl eq_refl eq_refl).
Defined.

(** X14 at a verified visitor whose URL submission was refused: the next
    URL submission is rejected locally. *)
Lemma answered_submission_requires_new_verification_witness :
  user page_verified = None /\
  isDev env_production = false /\
  trace (handleUrlUpload t_default (server_answers (response_refused None)) env_production
           (settle page_verified
              (trace (handleUrlUpload t_default (server_answers (response_refused None))
                        env_production page_verified menu_url)))
           menu_url) =
    [setUploadResult (failure "Please complete the reCAPTCHA verification to proceed.")].
Proof.
  do 2 (split; [reflexivity|]).
  destruct (proj2 (answered_submission_requires_new_verification t_default reader_ok
                     (server_answers (response_refused None)) env_production page_verified
                     (parsePublicUrl "https://example.com/menu" "tok") (response_refused None)
                     eq_refl eq_refl eq_refl) menu_url) as (Hnext & _).
  - cbn. auto 10.
  - exact (Hnext menu_url).
Defined.

(** X15 at an unverified visitor: a reported token lets the next URL
    submission through, an expiry blocks it. *)
Lemma widget_report_decides_url_submission_witness :
  user page_unverified = None /\
  isDev env_production = false /\
  existsb is_network
    (trace (handleUrlUpload t_default (server_answers response_u1) env_production
              (settle page_unverified (handleRecaptchaChange (Some "fresh"))) menu_url)) = true /\
  existsb is_network
    (trace (handleUrlUpload t_default (server_answers response_u1) env_production
              (settle page_verified (handleRecaptchaChange None)) menu_url)) = false.
Proof.
  do 2 (split; [reflexivity|]).
  split.
  - exact (proj1 (widget_report_decides_url_submission t_default (server_answers response_u1)
                    env_production page_unverified (Some "fresh") menu_url eq_refl) eq_refl).
  - exact (proj1 (widget_report_decides_url_submission t_default (server_answers response_u1)
                    env_production page_verified None menu_url eq_refl) eq_refl).
Defined.

(** X16 at a verified visitor whose file submission was refused. *)
Lemma answered_anonymous_submission_resets_verification_witness :
  user page_verified = None /\
  recaptchaToken page_verified = "tok" /\
  recaptchaVerified
    (settle page_verified
       (trace (handleFileUpload t_default reader_ok (server_answers (response_refused None))
                 env_production page_verified [file_50KB]))) = false /\
  recaptchaToken
    (settle page_verified
       (trace (handleFileUpload t_default reader_ok (server_answers (response_refused None))
                 env_production page_verified [file_50KB]))) = "dev-token".
Proof.
  do 2 (split; [reflexivity|]).
  destruct (proj1 (answered_anonymous_submission_resets_verification t_default reader_ok
                     (server_answers (response_refused None)) env_production page_verified
                     (uploadPublicMenu file_50KB "tok") (response_refused None)
                     eq_refl eq_refl) [file_50KB]) as (Hflag & Htoken & _).
  - cbn. auto 10.
  - split; [exact Hflag | exact Htoken].
Defined.

(** X17 at a signed-in user's file submission accepted with ["doc1"]. *)
Lemma authenticated_answer_is_rendered_witness :
  user page_authenticated = Some (mkUser "owner") /\
  rendersGoToMenus
    (settle page_authenticated
       (trace (handleFileUpload t_default reader_ok (server_answers response_doc1)
                 env_production page_authenticated [file_50KB]))) = true /\
  rendersStatusLine
    (settle page_authenticated
       (trace (handleFileUpload t_default reader_ok (server_answers response_doc1)
                 env_production page_authenticated [file_50KB]))) = true.
Proof.
  split; [reflexivity|].
  destruct (proj1 (authenticated_answer_is_rendered t_default reader_ok
                     (server_answers response_doc1) env_production page_authenticated
                     (mkUser "owner")
                     (api_uploadMenu "menu.pdf" (SizeNumber 51200) "application/pdf"
                        (Some "JVBERi0="))
                     response_doc1 eq_refl eq_refl) [file_50KB])
    as (_ & Hbutton & _ & Hstatus).
  - cbn. auto 10.
  - split; [exact Hbutton | exact (Hstatus eq_refl)].
Defined.

(** X18 at an unverified visitor, on a production and on a development
    build. *)
Lemma unverified_url_submission_follows_notice_witness :
  user page_unverified = None /\
  recaptchaVerified page_unverified = false /\
  existsb is_network
    (trace (handleUrlUpload t_default (server_answers response_u1) env_production
              page_unverified menu_url)) = rendersDevNotice env_production page_unverified /\
  existsb is_network
    (trace (handleUrlUpload t_default (server_answers response_u1) env_development
              page_development menu_url)) = rendersDevNotice env_development page_development.
Proof.
  do 2 (split; [reflexivity|]).
  split.
  - exact (proj1 (unverified_url_submission_follows_notice t_default
                    (server_answers response_u1) env_production page_unverified menu_url
                    eq_refl eq_refl)).
  - exact (proj1 (unverified_url_submission_follows_notice t_default
                    (server_answers response_u1) env_development page_development menu_url
                    eq_refl eq_refl)).
Defined.

(** X19 at an anonymous visitor and at a signed-in user. *)
Lemma session_decides_what_shows_witness :
  user page_unverified = None /\
  rendersCreateAccount page_unverified = true /\
  user page_authenticated <> None /\
  rendersLoggedInMessage page_authenticated = true.
Proof.
  split; [reflexivity|].
  split.
  - exact (proj1 (proj1 (session_decides_what_shows env_production page_unverified) eq_refl)).
  - assert (Hsession : user page_authenticated <> None) by discriminate.
    split; [exact Hsession|].
    exact (proj1 (proj1 (proj2 (session_decides_what_shows env_production page_authenticated))
                    Hsession)).
Defined.

